(** * Comment and thumbnail controllers: a shallow embedding

    The two Express controllers of the repository,
    [src/api/controllers/commentController.ts] and
    [src/api/controllers/imageController.ts], are embedded as state-passing
    functions over an explicit world (response locals, file system, log
    of outbound calls).  Everything the handlers import from outside the
    two files (the OpenAI SDK, [fetchData], [https], [fs], [path], [sharp],
    the clock) is a field of the record [Node]: the theorems hold for every
    behaviour of those collaborators. *)

From Stdlib Require Import ZArith QArith String Ascii List Bool Lia.
From stdpp Require Import base option list strings gmap pretty.

Local Open Scope string_scope.
Local Open Scope Z_scope.
Local Open Scope list_scope.

Set Warnings "-register-all".

(** ** JavaScript values *)

Module Js.

(** The values that reach the handlers are JSON documents (a parsed request
    body, a parsed provider response) plus [undefined] for a property that
    is not there.  A number is given by its value, a rational (JSON has
    neither NaN nor infinities; the handlers only test numbers for zero
    and pass them on, so rounding to a double is not modelled).  A
    [string] is a sequence of code units, one [ascii] each. *)
Inductive JsVal : Type :=
| JUndefined
| JNull
| JBool (b : bool)
| JNum (q : Q)
| JStr (s : string)
| JArr (items : list JsVal)
| JObj (fields : list (string * JsVal)).

(** ToBoolean: [undefined], [null], [false], [0] and the empty string are
    falsy, every other value is truthy. *)
Definition truthy (v : JsVal) : bool :=
  match v with
  | JUndefined | JNull => false
  | JBool b => b
  | JNum q => negb (Qnum q =? 0)
  | JStr s => negb (String.eqb s EmptyString)
  | JArr _ | JObj _ => true
  end.

(** [typeof v === 'string'] *)
Definition is_string (v : JsVal) : bool :=
  match v with JStr _ => true | _ => false end.

(** [v === undefined || v === null], the test behind [?.] and [??]. *)
Definition nullish (v : JsVal) : bool :=
  match v with JUndefined | JNull => true | _ => false end.

(** Own-property lookup in an object literal / parsed JSON object. *)
Fixpoint assoc (k : string) (fields : list (string * JsVal)) : JsVal :=
  match fields with
  | [] => JUndefined
  | (k', v) :: rest => if String.eqb k k' then v else assoc k rest
  end.

(** [v.name] on a value that is not [undefined] or [null].  The only
    property names the controllers read that a primitive or an array
    answers are [length] (strings, arrays); everything else is looked up
    in the object's own fields. *)
Definition prop (v : JsVal) (name : string) : JsVal :=
  match v with
  | JObj fields => assoc name fields
  | JArr items =>
      if String.eqb name "length" then JNum (inject_Z (Z.of_nat (length items)))
      else JUndefined
  | JStr s =>
      if String.eqb name "length" then JNum (inject_Z (Z.of_nat (String.length s)))
      else JUndefined
  | _ => JUndefined
  end.

(** [v[0]] on a value that is not [undefined] or [null]. *)
Definition first (v : JsVal) : JsVal :=
  match v with
  | JArr (x :: _) => x
  | JStr (String c _) => JStr (String c EmptyString)
  | JObj fields => assoc "0" fields
  | _ => JUndefined
  end.

(** [v?.name] and [v?.[0]]. *)
Definition opt_prop (v : JsVal) (name : string) : JsVal :=
  if nullish v then JUndefined else prop v name.

Definition opt_first (v : JsVal) : JsVal :=
  if nullish v then JUndefined else first v.

(** [a ?? b] *)
Definition coalesce (a b : JsVal) : JsVal := if nullish a then b else a.

(** [a || b] *)
Definition or_else (a b : JsVal) : JsVal := if truthy a then a else b.

(** A destructuring default [{ name = d } = v]: the default replaces
    [undefined] only. *)
Definition with_default (v d : JsVal) : JsVal :=
  match v with JUndefined => d | _ => v end.

(** [parts.join(sep)] on an array of strings. *)
Fixpoint join (sep : string) (parts : list string) : string :=
  match parts with
  | [] => EmptyString
  | [p] => p
  | p :: rest => p +:+ sep +:+ join sep rest
  end.

(** Whether an object has an own property of that name. *)
Fixpoint has_key (k : string) (fields : list (string * JsVal)) : bool :=
  match fields with
  | [] => false
  | (k', _) :: rest => String.eqb k k' || has_key k rest
  end.

(** ToString, as applied by [String(v)], by a template literal and by
    [v + '.'].  [num] is the runtime's Number-to-string conversion.  The
    conversion of an object goes through its [toString] property: the
    one every object inherits answers [[object Object]], but an own
    property of that name in a parsed document is no function, and the
    conversion then throws a TypeError: the result is [None].  An array
    joins the conversions of its items with commas, a null item counting
    as the empty string, and throws when one of them does. *)
Fixpoint to_string (num : Q -> string) (v : JsVal) : option string :=
  match v with
  | JUndefined => Some "undefined"
  | JNull => Some "null"
  | JBool true => Some "true"
  | JBool false => Some "false"
  | JNum q => Some (num q)
  | JStr s => Some s
  | JArr items =>
      let fix each (l : list JsVal) : option (list string) :=
        match l with
        | [] => Some []
        | x :: rest =>
            match (if nullish x then Some EmptyString else to_string num x) with
            | Some s =>
                match each rest with
                | Some ss => Some (s :: ss)
                | None => None
                end
            | None => None
            end
        end in
      match each items with
      | Some parts => Some (join "," parts)
      | None => None
      end
  | JObj fields =>
      if has_key "toString" fields then None else Some "[object Object]"
  end.

(** [s.replace(/\/$/, '')]: drop one trailing slash. *)
Fixpoint strip_trailing_slash (s : string) : string :=
  match s with
  | EmptyString => EmptyString
  | String c EmptyString => if Ascii.eqb c "/" then EmptyString else s
  | String c rest => String c (strip_trailing_slash rest)
  end.

(** The double quote, which the prompt puts around the splash text. *)
Definition dquote : string := String (ascii_of_nat 34) EmptyString.

End Js.

(** ** Express plumbing *)

Module Express.
Import Js.

(** What a handler can throw or hand to [next]: the repository's
    [CustomError(message, status)], the [Error] built in [saveImage], a
    TypeError of the language, or whatever a collaborator rejects with. *)
Inductive Err : Type :=
| CustomError (message : string) (status : Z)
| JsError (message : string)
| TypeError (message : string)
| Foreign (detail : string).

Inductive Res (A : Type) : Type :=
| Ok (a : A)
| Throw (e : Err).
Arguments Ok {A} a.
Arguments Throw {A} e.

(** How a handler hands over: [next()], [next(err)] or [res.json(body)];
    or not at all, when it awaits a promise that is never settled. *)
Inductive Outcome : Type :=
| Next
| NextErr (e : Err)
| Json (body : JsVal)
| Pending.

(** The fate of an awaited promise. *)
Inductive Settled : Type :=
| Resolved
| Rejected (e : Err)
| Unsettled.

(** Sequencing of pure steps that can throw. *)
Definition rbind {A B} (r : Res A) (k : A -> Res B) : Res B :=
  match r with
  | Ok a => k a
  | Throw e => Throw e
  end.

(** [process.env] as the controllers read it. *)
Record Env : Type := {
  OPENAI_API_KEY : option string;
  OPENAI_API_URL : option string
}.

(** A [process.env] entry is truthy when it is set and not empty. *)
Definition configured (v : option string) : bool :=
  match v with
  | Some s => negb (String.eqb s EmptyString)
  | None => false
  end.

Definition env_value (v : option string) : string :=
  match v with Some s => s | None => EmptyString end.

(** The second argument of [fetchData]; [fo_body] is the value handed to
    [JSON.stringify]. *)
Record FetchOptions : Type := {
  fo_method : string;
  fo_headers : list (string * string);
  fo_body : JsVal
}.

(** What [https.get(url, callback).on('error', handler)] does: throw on
    the spot (a malformed address), emit [error] on the request, call
    back with a response whose body then streams to its end, or call back
    with a response whose body breaks off (an error or an abort of the
    response) after the bytes [received]. *)
Inductive HttpsOutcome : Type :=
| GetThrows (e : Err)
| GetError (e : Err)
| GetResponse (statusCode : option Z) (body : list Byte.byte)
| GetCut (statusCode : option Z) (received : list Byte.byte).

(** The collaborators behind the imports of the two controllers.
    - [images_generate apiKey params]: [new OpenAI({ apiKey }).images.generate(params)];
    - [fetchData url options]: the repository's fetch wrapper, which returns
      the parsed JSON body or throws;
    - [https_get url]: the outcome of the download request;
    - [sharp_present]: whether the [sharp] import is truthy;
    - [sharp_resize_png w h input]: [sharp(path).resize(w, h).png().toFile(out)]
      on the bytes found at [path], if any: the bytes written or a throw;
    - [Buffer_from_base64 s]: [Buffer.from(s, 'base64')];
    - [Number_toString]: the conversion of a number to a string;
    - [Date_now]: the reading of [Date.now()], in milliseconds;
    - [uploads_dir]: [path.resolve(process.cwd(), 'uploads')];
    - [path_join]: [path.join];
    - [mkdir_fault], [write_fault], [unlink_fault]: the error, if any, the
      disk answers [mkdirSync], [writeFileSync], [unlinkSync] with at a
      path. *)
Record Node : Type := {
  images_generate : string -> JsVal -> Res JsVal;
  fetchData : string -> FetchOptions -> Res JsVal;
  https_get : string -> HttpsOutcome;
  sharp_present : bool;
  sharp_resize_png : Z -> Z -> option (list Byte.byte) -> Res (list Byte.byte);
  Buffer_from_base64 : string -> list Byte.byte;
  Number_toString : Q -> string;
  Date_now : Z;
  uploads_dir : string;
  path_join : string -> string -> string;
  mkdir_fault : string -> option Err;
  write_fault : string -> option Err;
  unlink_fault : string -> option Err
}.

(** Outbound calls and log lines, oldest first. *)
Inductive Event : Type :=
| EvImagesGenerate (apiKey : string) (params : JsVal)
| EvFetchData (url : string) (opts : FetchOptions)
| EvHttpsGet (url : string)
| EvSharp (src dst : string)
| EvConsole (line : string).

(** [res.locals] of the image route. *)
Record Locals : Type := {
  l_url : JsVal;
  l_b64 : JsVal;
  l_file : option string;
  l_thumb : option string
}.

Definition fresh_locals : Locals :=
  {| l_url := JUndefined; l_b64 := JUndefined; l_file := None; l_thumb := None |}.

Record World : Type := {
  locals : Locals;
  files : gmap string (list Byte.byte);
  dirs : gset string;
  trace : list Event
}.

Definition fresh_world : World :=
  {| locals := fresh_locals; files := ∅; dirs := ∅; trace := [] |}.

(** State and exceptions: a computation runs in a world and either returns
    or throws, leaving a world behind in both cases. *)
Definition M (A : Type) : Type := World -> Res A * World.

Definition ret {A} (a : A) : M A := fun w => (Ok a, w).
Definition throw {A} (e : Err) : M A := fun w => (Throw e, w).
Definition bind {A B} (m : M A) (k : A -> M B) : M B :=
  fun w => match m w with
           | (Ok a, w') => k a w'
           | (Throw e, w') => (Throw e, w')
           end.
Definition try_catch {A} (m : M A) (h : Err -> M A) : M A :=
  fun w => match m w with
           | (Ok a, w') => (Ok a, w')
           | (Throw e, w') => h e w'
           end.
Definition lift {A} (r : Res A) : M A := fun w => (r, w).

Declare Scope js_scope.
Delimit Scope js_scope with js.
Notation "'let!' x ':=' m 'in' k" := (bind m (fun x => k))
  (at level 10, x name, m at level 100, k at level 200) : js_scope.
Notation "'run!' m 'in' k" := (bind m (fun _ => k))
  (at level 10, m at level 100, k at level 200) : js_scope.
Notation "'let?' x ':=' r 'in' k" := (rbind r (fun x => k))
  (at level 10, x name, r at level 100, k at level 200) : js_scope.

(** [String(v)] and its like, throwing where the conversion does. *)
Definition to_str (num : Q -> string) (v : JsVal) : Res string :=
  match to_string num v with
  | Some s => Ok s
  | None => Throw (TypeError "Cannot convert object to primitive value")
  end.

Definition emit (e : Event) : M unit :=
  fun w => (Ok tt, {| locals := locals w; files := files w; dirs := dirs w;
                      trace := trace w ++ [e] |}).
Definition get_locals : M Locals := fun w => (Ok (locals w), w).
Definition set_locals (l : Locals) : M unit :=
  fun w => (Ok tt, {| locals := l; files := files w; dirs := dirs w; trace := trace w |}).
Definition set_files (f : gmap string (list Byte.byte)) : M unit :=
  fun w => (Ok tt, {| locals := locals w; files := f; dirs := dirs w; trace := trace w |}).
Definition get_files : M (gmap string (list Byte.byte)) := fun w => (Ok (files w), w).

(** A handler is its body inside [try { ... } catch (error) { next(error) }]. *)
Definition handler (body : M Outcome) : M Outcome :=
  try_catch body (fun e => ret (NextErr e)).

End Express.

(** ** [src/api/controllers/imageController.ts] *)

Module ImageController.
Import Js Express.
Local Open Scope js_scope.

Section Handlers.
Variable nd : Node.
Variable env : Env.

Definition str (v : JsVal) : Res string := to_str (Number_toString nd) v.

(** [makePrompt(topic, splashText = '', style = '')] *)
Definition makePrompt (topic splashText style : JsVal) : Res string :=
  let splashText := with_default splashText (JStr EmptyString) in
  let style := with_default style (JStr EmptyString) in
  let? opening :=
    (let? t := str topic in
     Ok ["YouTube thumbnail for a video about " +:+ t +:+ "."]) in
  let? styled :=
    (if truthy style then (let? s := str style in Ok [s +:+ "."]) else Ok []) in
  let? splashed :=
    (if truthy splashText
     then (let? s := str splashText in
           Ok ["Include large bold splash text: " +:+ dquote +:+ s +:+ dquote +:+ "."])
     else Ok []) in
  let promptParts :=
    opening ++ styled ++ splashed
    ++ ["High contrast, bold composition, clear central subject, readable text, vibrant colors."]
    ++ ["Composition suited for a 16:9 YouTube thumbnail."] in
  Ok (join " " promptParts).

Definition set_url (v : JsVal) : M unit :=
  let! l := get_locals in
  set_locals {| l_url := v; l_b64 := l_b64 l; l_file := l_file l; l_thumb := l_thumb l |}.
Definition set_b64 (v : JsVal) : M unit :=
  let! l := get_locals in
  set_locals {| l_url := l_url l; l_b64 := v; l_file := l_file l; l_thumb := l_thumb l |}.
Definition set_file (name : string) : M unit :=
  let! l := get_locals in
  set_locals {| l_url := l_url l; l_b64 := l_b64 l; l_file := Some name; l_thumb := l_thumb l |}.
Definition set_thumb (name : string) : M unit :=
  let! l := get_locals in
  set_locals {| l_url := l_url l; l_b64 := l_b64 l; l_file := l_file l; l_thumb := Some name |}.

(** The object [{ model, prompt, size }] both strategies send. *)
Definition image_payload (model : JsVal) (prompt : string) (size : JsVal) : JsVal :=
  JObj [("model", model); ("prompt", JStr prompt); ("size", size)].

Definition generateImage (body : JsVal) : M Outcome :=
  handler (
    let b := or_else body (JObj []) in
    let topic := prop b "topic" in
    let splashText := with_default (prop b "splashText") (JStr EmptyString) in
    let style := with_default (prop b "style") (JStr EmptyString) in
    let size := with_default (prop b "size") (JStr "1024x1024") in
    let model := with_default (prop b "model") (JStr "dall-e-2") in
    if negb (truthy topic) || negb (is_string topic) then
      ret (NextErr (CustomError "topic (string) is required in request body" 400))
    else
      let! prompt := lift (makePrompt topic splashText style) in
      if configured (OPENAI_API_KEY env) then
        let apiKey := env_value (OPENAI_API_KEY env) in
        let params := image_payload model prompt size in
        run! emit (EvImagesGenerate apiKey params) in
        let! response := lift (images_generate nd apiKey params) in
        let item := opt_first (opt_prop response "data") in
        if negb (truthy item) then
          ret (NextErr (CustomError "Image not generated (SDK returned no data)" 500))
        else if truthy (prop item "url") then
          run! set_url (prop item "url") in ret Next
        else if truthy (prop item "b64_json") then
          run! set_b64 (prop item "b64_json") in ret Next
        else
          ret (NextErr (CustomError "Image not generated (no url or b64_json)" 500))
      else if configured (OPENAI_API_URL env) then
        let baseUrl := strip_trailing_slash (env_value (OPENAI_API_URL env)) in
        let url := baseUrl +:+ "/v1/images/generations" in
        let headers :=
          [("Content-Type", "application/json")]
          ++ (if configured (OPENAI_API_KEY env)
              then [("Authorization", "Bearer " +:+ env_value (OPENAI_API_KEY env))]
              else []) in
        let payload := image_payload model prompt size in
        let opts := {| fo_method := "POST"; fo_headers := headers; fo_body := payload |} in
        run! emit (EvFetchData url opts) in
        let! apiResponse := lift (fetchData nd url opts) in
        let item := opt_first (opt_prop apiResponse "data") in
        if negb (truthy item) then
          ret (NextErr (CustomError "Image not generated (proxy returned no data)" 500))
        else if truthy (prop item "url") then
          run! set_url (prop item "url") in ret Next
        else if truthy (prop item "b64_json") then
          run! set_b64 (prop item "b64_json") in ret Next
        else
          ret (NextErr (CustomError "Image not generated (proxy returned no url or b64_json)" 500))
      else
        ret (NextErr (CustomError "No OPENAI_API_KEY or OPENAI_API_URL configured" 500))).

(** The character class [[a-z0-9-_]] under the flag [i]: ASCII letters,
    digits, dash and underscore. *)
Definition keeps (c : ascii) : bool :=
  let n := nat_of_ascii c in
  ((97 <=? n) && (n <=? 122) || (65 <=? n) && (n <=? 90)
   || (48 <=? n) && (n <=? 57) || (n =? 45) || (n =? 95))%nat.

(** [s.replace(/[^a-z0-9-_]/gi, '_')] *)
Fixpoint sanitize (s : string) : string :=
  match s with
  | EmptyString => EmptyString
  | String c rest => String (if keeps c then c else "_"%char) (sanitize rest)
  end.

(** [s.toLowerCase()] on the ASCII range, which is all [saveImage] hands
    it; a code unit outside A-Z is returned as it is. *)
Definition lower (c : ascii) : ascii :=
  let n := nat_of_ascii c in
  if ((65 <=? n) && (n <=? 90))%nat then ascii_of_nat (n + 32) else c.

Fixpoint toLowerCase (s : string) : string :=
  match s with
  | EmptyString => EmptyString
  | String c rest => String (lower c) (toLowerCase rest)
  end.

(** [fs.existsSync(dir) || fs.mkdirSync(dir, { recursive: true })] *)
Definition ensure_dir (dir : string) : M unit :=
  fun w =>
    if bool_decide (dir ∈ dirs w) then (Ok tt, w)
    else match mkdir_fault nd dir with
         | Some e => (Throw e, w)
         | None => (Ok tt, {| locals := locals w; files := files w;
                              dirs := {[dir]} ∪ dirs w; trace := trace w |})
         end.

(** [fs.writeFileSync(path, buffer)] *)
Definition writeFileSync (path : string) (buffer : list Byte.byte) : M unit :=
  match write_fault nd path with
  | Some e => throw e
  | None => let! f := get_files in set_files (<[path := buffer]> f)
  end.

(** [fs.createWriteStream(path)]: the file is there, empty, until the
    response is piped into it; on a disk that refuses the write no file
    appears.  The handler puts no listener on the stream's [error], so
    that error settles nothing. *)
Definition createWriteStream (path : string) : M unit :=
  match write_fault nd path with
  | Some _ => ret tt
  | None => let! f := get_files in set_files (<[path := []]> f)
  end.

(** [response.pipe(fileStream)] up to the stream's [finish], which is
    what resolves the promise.  Nothing listens for an error of the
    write stream or of the response: after either, [finish] never comes
    and the promise is never settled. *)
Definition pipe (imagePath : string) (bytes : list Byte.byte) (complete : bool) : M Settled :=
  match write_fault nd imagePath with
  | Some _ => ret Unsettled
  | None =>
      let! f := get_files in
      run! set_files (<[imagePath := bytes]> f) in
      ret (if complete then Resolved else Unsettled)
  end.

(** [fs.unlinkSync(path)] *)
Definition unlinkSync (path : string) : M unit :=
  match unlink_fault nd path with
  | Some e => throw e
  | None =>
      let! f := get_files in
      match f !! path with
      | Some _ => set_files (delete path f)
      | None => throw (Foreign "ENOENT")
      end
  end.

(** The test [response.statusCode && response.statusCode >= 400]. *)
Definition status_rejected (statusCode : option Z) : bool :=
  match statusCode with
  | Some s => negb (s =? 0) && (400 <=? s)
  | None => false
  end.

Definition status_text (statusCode : option Z) : string :=
  match statusCode with Some s => pretty s | None => "undefined" end.

(** The promise built in [saveImage] and its fate.  A throw inside the
    executor rejects the promise. *)
Definition download (imageUrl imagePath : string) : M Settled :=
  run! createWriteStream imagePath in
  run! emit (EvHttpsGet imageUrl) in
  match https_get nd imageUrl with
  | GetThrows e => ret (Rejected e)
  | GetResponse statusCode bytes =>
      if status_rejected statusCode then
        ret (Rejected
               (JsError ("Failed to download image, status " +:+ status_text statusCode)))
      else pipe imagePath bytes true
  | GetCut statusCode received =>
      if status_rejected statusCode then
        ret (Rejected
               (JsError ("Failed to download image, status " +:+ status_text statusCode)))
      else pipe imagePath received false
  | GetError err =>
      run! try_catch (unlinkSync imagePath) (fun _ => ret tt) in
      ret (Rejected err)
  end.

Definition saveImage (body : JsVal) : M Outcome :=
  handler (
    let uploadsDir := uploads_dir nd in
    run! ensure_dir uploadsDir in
    let! baseName :=
      match or_else (opt_prop body "topic") (JStr "image") with
      | JStr s => ret (toLowerCase (sanitize s))
      | _ => throw (TypeError "replace is not a function")
      end in
    let timestamp := Date_now nd in
    let imageName := baseName +:+ "_" +:+ pretty timestamp +:+ ".png" in
    let imagePath := path_join nd uploadsDir imageName in
    let! l := get_locals in
    if truthy (l_b64 l) then
      let! b64 := lift (str (l_b64 l)) in
      let buffer := Buffer_from_base64 nd b64 in
      run! writeFileSync imagePath buffer in
      run! set_file imageName in
      ret Next
    else if negb (truthy (l_url l)) then
      ret (NextErr (CustomError "No image URL or data to save" 500))
    else
      let! imageUrl := lift (str (l_url l)) in
      let! fate := download imageUrl imagePath in
      match fate with
      | Resolved =>
          run! set_file imageName in
          ret Next
      | Rejected e => throw e
      | Unsettled => ret Pending
      end).

Definition file_given (f : option string) : bool :=
  match f with
  | Some s => negb (String.eqb s EmptyString)
  | None => false
  end.

Definition makeThumbnail : M Outcome :=
  try_catch (
    let uploadsDir := uploads_dir nd in
    let! l := get_locals in
    match l_file l with
    | Some fileName =>
        if String.eqb fileName EmptyString then ret Next
        else
          let filePath := path_join nd uploadsDir fileName in
          let thumbName := "thumb_" +:+ fileName in
          let thumbPath := path_join nd uploadsDir thumbName in
          if negb (sharp_present nd) then
            run! emit (EvConsole "sharp not installed, skipping thumbnail creation") in
            ret Next
          else
            run! emit (EvSharp filePath thumbPath) in
            let! f := get_files in
            let! out := lift (sharp_resize_png nd 320 180 (f !! filePath)) in
            run! set_files (<[thumbPath := out]> f) in
            run! set_thumb thumbName in
            ret Next
    | None => ret Next
    end)
    (fun error =>
       run! emit (EvConsole "Thumbnail creation failed:") in
       ret Next).

Definition opt_str (o : option string) : JsVal :=
  match o with Some s => JStr s | None => JUndefined end.

Definition respondWithImage : M Outcome :=
  let! l := get_locals in
  ret (Json (JObj [("file", opt_str (l_file l));
                   ("thumb", opt_str (l_thumb l));
                   ("url", l_url l)])).

(** Express runs the next handler of the route after [next()] and leaves
    the route on [next(err)] or on a sent response. *)
Definition and_then (h1 h2 : M Outcome) : M Outcome :=
  let! o := h1 in
  match o with
  | Next => h2
  | _ => ret o
  end.

(** The handlers of [POST /api/v1/images] in route order, after the
    validators. *)
Definition image_route (body : JsVal) : M Outcome :=
  and_then (generateImage body)
    (and_then (saveImage body)
       (and_then makeThumbnail respondWithImage)).

End Handlers.
End ImageController.

(** ** [src/api/controllers/commentController.ts] *)

Module CommentController.
Import Js Express.
Local Open Scope js_scope.

Section Handlers.
Variable nd : Node.
Variable env : Env.

Definition str (v : JsVal) : Res string := to_str (Number_toString nd) v.

(** [v.name] without [?.]: a TypeError on [undefined] and [null]. *)
Definition member (v : JsVal) (name : string) : M JsVal :=
  if nullish v then throw (TypeError "Cannot read properties of null")
  else ret (prop v name).

Definition default_responder : JsVal :=
  JObj [("name", JStr "Responder"); ("persona", JStr "helpful and friendly")].

Definition commentPost (body : JsVal) : M Outcome :=
  handler (
    let b := or_else body (JObj []) in
    let text := prop b "text" in
    let style := with_default (prop b "style") (JStr "nice") in
    let responder := with_default (prop b "responder") default_responder in
    let temperature := with_default (prop b "temperature") (JNum (7 # 10)) in
    let max_tokens := with_default (prop b "max_tokens") (JNum (150 # 1)) in
    let model := with_default (prop b "model") (JStr "gpt-4o-mini") in
    if negb (truthy text) || negb (is_string text) then
      ret (NextErr (CustomError "No text provided" 400))
    else if negb (configured (OPENAI_API_URL env)) then
      ret (NextErr (CustomError "No API url found" 500))
    else
      let! name := member responder "name" in
      let! persona := member responder "persona" in
      let! named :=
        lift (if truthy name
              then (let? s := str name in Ok ["You are " +:+ s +:+ "."])
              else Ok []) in
      let! personified :=
        lift (if truthy persona
              then (let? s := str persona in Ok [s +:+ "."])
              else Ok ["You are a helpful assistant."]) in
      let! tone := lift (str style) in
      let systemParts :=
        named ++ personified
        ++ ["Adopt this tone: " +:+ tone +:+ "."]
        ++ ["Keep replies concise (1-2 short sentences), suitable for a YouTube comment. Do not include meta commentary about being an AI."] in
      let systemMessage := join " " systemParts in
      let! quoted := lift (str text) in
      let! tone_again := lift (str style) in
      let userMessage :=
        "A user commented: " +:+ dquote +:+ quoted +:+ dquote
        +:+ ". Write a short reply (1-2 sentences) in the requested tone ("
        +:+ tone_again +:+ ")." in
      let requestPayload :=
        JObj [("model", model);
              ("messages",
               JArr [JObj [("role", JStr "system"); ("content", JStr systemMessage)];
                     JObj [("role", JStr "user"); ("content", JStr userMessage)]]);
              ("temperature", temperature);
              ("max_tokens", max_tokens)] in
      let headers :=
        [("Content-Type", "application/json")]
        ++ (if configured (OPENAI_API_KEY env)
            then [("Authorization", "Bearer " +:+ env_value (OPENAI_API_KEY env))]
            else []) in
      let url :=
        strip_trailing_slash (env_value (OPENAI_API_URL env)) +:+ "/v1/chat/completions" in
      let opts := {| fo_method := "POST"; fo_headers := headers; fo_body := requestPayload |} in
      run! emit (EvFetchData url opts) in
      let! completion := lift (fetchData nd url opts) in
      if negb (truthy (opt_prop (opt_prop completion "choices") "length")) then
        ret (NextErr (CustomError "No completion choices returned" 500))
      else
        let choiceAny := first (prop completion "choices") in
        let reply :=
          coalesce
            (coalesce (opt_prop (opt_prop choiceAny "message") "content")
               (if is_string (opt_prop choiceAny "text")
                then prop choiceAny "text" else JStr EmptyString))
            (JStr EmptyString) in
        ret (Json (JObj [("response", reply); ("raw", completion)]))).

End Handlers.
End CommentController.

(** ** Stub collaborators

    A provider that answers every call with one fixed result, a download
    with one fixed outcome, a thumbnailer with one fixed result, a disk
    that never refuses an operation.  The examples below run the handlers
    against them. *)

Module Stub.
Import Js Express.

Definition png : list Byte.byte := [Byte.x89; Byte.x50; Byte.x4e; Byte.x47].

Definition node (answer : Res JsVal) (get : HttpsOutcome)
    (thumb : Res (list Byte.byte)) (unlink : option Err) : Node :=
  {| images_generate := fun _ _ => answer;
     fetchData := fun _ _ => answer;
     https_get := fun _ => get;
     sharp_present := true;
     sharp_resize_png := fun _ _ _ => thumb;
     Buffer_from_base64 := fun _ => png;
     Number_toString := fun _ => "0";
     Date_now := 1700000000000;
     uploads_dir := "/app/uploads";
     path_join := fun a b => a +:+ "/" +:+ b;
     mkdir_fault := fun _ => None;
     write_fault := fun _ => None;
     unlink_fault := fun _ => unlink |}.

Definition with_key : Env :=
  {| OPENAI_API_KEY := Some "sk-test"; OPENAI_API_URL := None |}.
Definition with_url : Env :=
  {| OPENAI_API_KEY := None; OPENAI_API_URL := Some "https://llm.example/" |}.
Definition unconfigured : Env :=
  {| OPENAI_API_KEY := None; OPENAI_API_URL := None |}.

Definition space_request : JsVal := JObj [("topic", JStr "space")].
Definition space_prompt : string :=
  "YouTube thumbnail for a video about space. High contrast, bold composition, clear central subject, readable text, vibrant colors. Composition suited for a 16:9 YouTube thumbnail.".
Definition comment_request : JsVal :=
  JObj [("text", JStr "Great video!"); ("style", JStr "funny")].

Definition image_answer (item : JsVal) : Res JsVal :=
  Ok (JObj [("created", JNum (1 # 1)); ("data", JArr [item])]).

Definition url_item : JsVal := JObj [("url", JStr "https://cdn.example/a.png")].
Definition b64_item : JsVal := JObj [("b64_json", JStr "iVBORw0KGgo=")].
Definition both_item : JsVal :=
  JObj [("url", JStr "https://cdn.example/a.png"); ("b64_json", JStr "iVBORw0KGgo=")].
Definition empty_item : JsVal := JObj [("revised_prompt", JStr "a thumbnail")].

Definition completion (choices : list JsVal) : JsVal :=
  JObj [("id", JStr "chatcmpl-1"); ("choices", JArr choices)].
Definition chat_choice (content : JsVal) : JsVal :=
  JObj [("index", JNum (0 # 1));
        ("message", JObj [("role", JStr "assistant"); ("content", content)])].
Definition legacy_choice (text : string) : JsVal :=
  JObj [("index", JNum (0 # 1)); ("text", JStr text)].

Definition quiet : Node := node (image_answer b64_item) (GetResponse (Some 200) png) (Ok png) None.

Definition moved : list Byte.byte := [Byte.x3c; Byte.x61; Byte.x3e].
Definition not_found : Node :=
  node (image_answer url_item) (GetResponse (Some 404) moved) (Ok png) None.

(** A thumbnailer that throws. *)
Definition no_thumb : Node :=
  node (image_answer b64_item) (GetResponse (Some 200) png)
    (Throw (Foreign "Input buffer contains unsupported image format")) None.

(** A provider whose first item has neither a url nor a payload. *)
Definition stingy : Node :=
  node (image_answer empty_item) (GetResponse (Some 200) png) (Ok png) None.

(** A provider that sends both a url and a payload. *)
Definition downloaded : list Byte.byte := [Byte.xff; Byte.xd8; Byte.xff; Byte.xe0].
Definition generous : Node :=
  node (image_answer both_item) (GetResponse (Some 200) downloaded) (Ok png) None.

(** Chat providers: no choices, a structured reply, an empty structured
    reply, a legacy text reply, a choice with nothing to read. *)
Definition chat (choices : list JsVal) : Node :=
  node (Ok (completion choices)) (GetResponse (Some 200) png) (Ok png) None.
Definition bare_choice : JsVal := JObj [("index", JNum (0 # 1)); ("finish_reason", JStr "stop")].

(** A world in which the generation stage left a remote address. *)
Definition after_generation (url : JsVal) : World :=
  {| locals := {| l_url := url; l_b64 := JUndefined; l_file := None; l_thumb := None |};
     files := ∅; dirs := ∅; trace := [] |}.


(** A world in which the persistence stage stored a file. *)
Definition after_save (name : string) : World :=
  {| locals := {| l_url := JUndefined; l_b64 := JStr "iVBORw0KGgo=";
                  l_file := Some name; l_thumb := None |};
     files := {[ "/app/uploads/" +:+ name := png ]}; dirs := {[ "/app/uploads" ]};
     trace := [] |}.

End Stub.

(** ** The specification's vocabulary

    The notions the specification speaks in, as definitions of their own:
    the theorems below compare the handlers with them. *)

Module Reading.
Import Js Express ImageController.

(** An optional argument counts as given when it is there and not empty. *)
Definition given (o : option string) : bool :=
  match o with
  | Some s => negb (String.eqb s EmptyString)
  | None => false
  end.

Definition arg (o : option string) : JsVal :=
  match o with Some s => JStr s | None => JUndefined end.

Definition text_of (o : option string) : string :=
  match o with Some s => s | None => EmptyString end.

Definition opener (topic : string) : string :=
  "YouTube thumbnail for a video about " +:+ topic +:+ ".".
Definition style_clause (style : string) : string := style +:+ ".".
Definition splash_clause (splashText : string) : string :=
  "Include large bold splash text: " +:+ dquote +:+ splashText +:+ dquote +:+ ".".
Definition composition_clause : string :=
  "High contrast, bold composition, clear central subject, readable text, vibrant colors.".
Definition format_clause : string :=
  "Composition suited for a 16:9 YouTube thumbnail.".

(** A request field as the handlers read it, with its default. *)
Definition field (body : JsVal) (name : string) (default : JsVal) : JsVal :=
  with_default (prop (or_else body (JObj [])) name) default.

(** The request carries [name] as a string that is not empty. *)
Definition has_string (body : JsVal) (name value : string) : Prop :=
  prop (or_else body (JObj [])) name = JStr value /\ value <> EmptyString.

(** The request carries no string under [name]: the field is absent or
    holds a value of another type. *)
Definition lacks_string (body : JsVal) (name : string) : Prop :=
  is_string (prop (or_else body (JObj [])) name) = false.

(** The value converts to that string. *)
Definition converts_to (nd : Node) (v : JsVal) (s : string) : Prop :=
  to_string (Number_toString nd) v = Some s.

(** The prompt of an image request with topic [topic] is built and is
    [prompt]. *)
Definition prompt_is (nd : Node) (body : JsVal) (topic prompt : string) : Prop :=
  makePrompt nd (JStr topic) (field body "splashText" (JStr EmptyString))
    (field body "style" (JStr EmptyString)) = Ok prompt.

(** The parameters of an image request with that prompt. *)
Definition image_request (body : JsVal) (prompt : string) : JsVal :=
  image_payload
    (field body "model" (JStr "dall-e-2"))
    prompt
    (field body "size" (JStr "1024x1024")).

(** What the provider answered to a logged call. *)
Definition answer_of (nd : Node) (e : Event) : option (Res JsVal) :=
  match e with
  | EvImagesGenerate apiKey params => Some (images_generate nd apiKey params)
  | EvFetchData url opts => Some (fetchData nd url opts)
  | _ => None
  end.

(** The first data item of a provider response. *)
Definition first_item (response : JsVal) : JsVal :=
  opt_first (opt_prop response "data").

(** A lower-case letter, a digit, a dash or an underscore. *)
Definition token_char (c : ascii) : bool :=
  let n := nat_of_ascii c in
  ((97 <=? n) && (n <=? 122) || (48 <=? n) && (n <=? 57) || (n =? 45) || (n =? 95))%nat.

Fixpoint all_chars (p : ascii -> bool) (s : string) : bool :=
  match s with
  | EmptyString => true
  | String c rest => p c && all_chars p rest
  end.

(** Name and place of the file stored for a topic. *)
Definition image_name (nd : Node) (topic : string) : string :=
  toLowerCase (sanitize topic) +:+ "_" +:+ pretty (Date_now nd) +:+ ".png".
Definition image_path (nd : Node) (topic : string) : string :=
  path_join nd (uploads_dir nd) (image_name nd topic).

(** The uploads directory is there or can be made. *)
Definition uploads_ready (nd : Node) (w : World) : Prop :=
  uploads_dir nd ∈ dirs w \/ mkdir_fault nd (uploads_dir nd) = None.


(** The reply the specification reads off a choice: the message content
    when present, else the text field when it is a string, else the empty
    string. *)
Definition reply_of (choice : JsVal) : JsVal :=
  let content := opt_prop (opt_prop choice "message") "content" in
  if negb (nullish content) then content
  else match opt_prop choice "text" with
       | JStr text => JStr text
       | _ => JStr EmptyString
       end.

End Reading.

(** ** The earlier comment handler

    The repository also holds the comment handler as it was before the
    request options were added: no check of the text, a fixed system
    message, the base address used as configured, and a reply read from
    the message content only. *)

Module LegacyCommentController.
Import Js Express.
Local Open Scope js_scope.

Section Handlers.
Variable nd : Node.
Variable env : Env.

Definition commentPost (body : JsVal) : M Outcome :=
  handler (
    let! text := CommentController.member body "text" in
    let request :=
      JObj [("messages",
             JArr [JObj [("role", JStr "system");
                         ("content",
                          JStr "You are the user that we are looking for doing tasks")];
                   JObj [("role", JStr "user"); ("content", text)]]);
            ("model", JStr "gpt-4o-mini")] in
    if negb (configured (OPENAI_API_URL env)) then
      ret (NextErr (CustomError "No API url found" 500))
    else
      let url := env_value (OPENAI_API_URL env) +:+ "/v1/chat/completions" in
      let opts := {| fo_method := "POST";
                     fo_headers := [("Content-Type", "application/json")];
                     fo_body := request |} in
      run! emit (EvFetchData url opts) in
      let! completion := lift (fetchData nd url opts) in
      if negb (truthy (opt_prop (opt_prop completion "choices") "length")) then
        ret (NextErr (CustomError "No completion choices returned" 500))
      else
        let! message :=
          CommentController.member (first (prop completion "choices")) "message" in
        ret (Json (JObj [("response",
                          coalesce (opt_prop message "content") (JStr EmptyString))]))).

End Handlers.
End LegacyCommentController.

(** ** More collaborators and vocabulary *)

Module Cases.
Import Js Express.

(** A call to the provider, as opposed to a download, a resize or a log
    line. *)
Definition provider_call (e : Event) : bool :=
  match e with
  | EvImagesGenerate _ _ | EvFetchData _ _ => true
  | _ => false
  end.

(** The response body's three references. *)
Definition references (file thumb url : JsVal) : JsVal :=
  JObj [("file", file); ("thumb", thumb); ("url", url)].


(** A provider that is down, one that answers without data, one that
    answers with a url only. *)
Definition down : Node :=
  Stub.node (Throw (Foreign "503 Service Unavailable"))
    (GetResponse (Some 200) Stub.png) (Ok Stub.png) None.
Definition no_data : Node :=
  Stub.node (Ok (JObj [("created", JNum (1 # 1)); ("data", JArr [])]))
    (GetResponse (Some 200) Stub.png) (Ok Stub.png) None.
Definition remote : Node :=
  Stub.node (Stub.image_answer Stub.url_item)
    (GetResponse (Some 200) Stub.downloaded) (Ok Stub.png) None.


(** A request whose style is an object with a toString entry of its
    own. *)
Definition unconvertible_style_request : JsVal :=
  JObj [("topic", JStr "space"); ("style", JObj [("toString", JStr "x")])].

Definition with_both : Env :=
  {| OPENAI_API_KEY := Some "sk-test"; OPENAI_API_URL := Some "https://llm.example" |}.
Definition with_bare_url : Env :=
  {| OPENAI_API_KEY := None; OPENAI_API_URL := Some "https://llm.example" |}.


Definition null_responder_request : JsVal :=
  JObj [("text", JStr "Great video!"); ("responder", JNull)].
Definition unconvertible_style_comment : JsVal :=
  JObj [("text", JStr "Great video!"); ("style", JObj [("toString", JStr "x")])].
Definition tuned_request : JsVal :=
  JObj [("text", JStr "Great video!"); ("temperature", JNum (1 # 5));
        ("max_tokens", JNum (60 # 1)); ("model", JStr "gpt-4o")].

End Cases.

(** * Properties of the image controller *)

Module ImageProps.
Import Js Express ImageController Reading.

(** ** The prompt *)

Lemma truthy_arg o : truthy (with_default (arg o) (JStr EmptyString)) = given o.
Proof. destruct o as [s|]; reflexivity. Qed.

Lemma str_arg nd o : str nd (with_default (arg o) (JStr EmptyString)) = Ok (text_of o).
Proof. destruct o as [s|]; reflexivity. Qed.

(** C7. For every topic, optional splash text and optional style, the
    prompt is built, and it is: the opener naming the topic; then, exactly
    when a (non-empty) style was given, a space and the style clause;
    then, exactly when a (non-empty) splash text was given, a space and
    the splash clause; then a space and the composition clause; then a
    space and the format clause. *)
Theorem makePrompt_clauses (nd : Node) (topic : string) (splashText style : option string) :
  makePrompt nd (JStr topic) (arg splashText) (arg style) =
  Ok (opener topic
      +:+ (if given style then " " +:+ style_clause (text_of style) else EmptyString)
      +:+ (if given splashText then " " +:+ splash_clause (text_of splashText)
           else EmptyString)
      +:+ " " +:+ composition_clause
      +:+ " " +:+ format_clause).
Proof.
  unfold makePrompt. cbv zeta. rewrite !truthy_arg, !str_arg.
  destruct (given style), (given splashText); reflexivity.
Qed.

Lemma makePrompt_clauses_witness :
  makePrompt Stub.quiet (JStr "space") (JStr "Go!") (JStr "cinematic") =
  Ok ("YouTube thumbnail for a video about space. cinematic. Include large bold splash text: "
      +:+ dquote +:+ "Go!" +:+ dquote
      +:+ ". High contrast, bold composition, clear central subject, readable text, vibrant colors. Composition suited for a 16:9 YouTube thumbnail.") /\
  makePrompt Stub.quiet (JStr "space") JUndefined (JStr "cinematic") =
  Ok "YouTube thumbnail for a video about space. cinematic. High contrast, bold composition, clear central subject, readable text, vibrant colors. Composition suited for a 16:9 YouTube thumbnail." /\
  makePrompt Stub.quiet (JStr "space") (JStr EmptyString) JUndefined =
  Ok "YouTube thumbnail for a video about space. High contrast, bold composition, clear central subject, readable text, vibrant colors. Composition suited for a 16:9 YouTube thumbnail.".
Proof.
  split; [|split].
  - exact (makePrompt_clauses Stub.quiet "space" (Some "Go!") (Some "cinematic")).
  - exact (makePrompt_clauses Stub.quiet "space" None (Some "cinematic")).
  - exact (makePrompt_clauses Stub.quiet "space" (Some EmptyString) None).
Defined.

Example makePrompt_plain :
  makePrompt Stub.quiet (JStr "space") JUndefined JUndefined =
  Ok "YouTube thumbnail for a video about space. High contrast, bold composition, clear central subject, readable text, vibrant colors. Composition suited for a 16:9 YouTube thumbnail.".
Proof. reflexivity. Qed.

Example makePrompt_full :
  makePrompt Stub.quiet (JStr "space") (JStr "Go!") (JStr "cinematic") =
  Ok ("YouTube thumbnail for a video about space. cinematic. Include large bold splash text: "
      +:+ dquote +:+ "Go!" +:+ dquote
      +:+ ". High contrast, bold composition, clear central subject, readable text, vibrant colors. Composition suited for a 16:9 YouTube thumbnail.").
Proof. reflexivity. Qed.

(** ** Generation *)

Lemma topic_guard body topic :
  has_string body "topic" topic ->
  let v := prop (or_else body (JObj [])) "topic" in
  negb (truthy v) || negb (is_string v) = false.
Proof.
  intros [Hv Hne]. cbv zeta. rewrite Hv. simpl.
  apply String.eqb_neq in Hne. rewrite Hne. reflexivity.
Qed.

Lemma topic_guard_lacking body :
  lacks_string body "topic" ->
  let v := prop (or_else body (JObj [])) "topic" in
  negb (truthy v) || negb (is_string v) = true.
Proof.
  unfold lacks_string. intros Hv. cbv zeta. rewrite Hv. apply orb_true_r.
Qed.

(** A request without a string topic is turned away before anything is
    sent. *)
Lemma generateImage_rejects nd env body w :
  lacks_string body "topic" ->
  generateImage nd env body w =
  (Ok (NextErr (CustomError "topic (string) is required in request body" 400)), w).
Proof.
  intros H. unfold generateImage, handler, try_catch. cbv zeta.
  rewrite (topic_guard_lacking body H). reflexivity.
Qed.

Ltac step_handler :=
  cbv beta iota zeta delta
    [handler try_catch bind ret throw lift emit set_url set_b64 set_file set_thumb
     get_locals set_locals get_files set_files];
  cbn [fst snd trace locals files dirs l_url l_b64 l_file l_thumb].

Ltac split_ifs :=
  repeat match goal with
         | |- context [match ?r with Ok _ => _ | Throw _ => _ end] => destruct r eqn:?
         | |- context [if ?c then _ else _] => destruct c eqn:?
         end.

(** C3. For every image request (a request whose topic is a non-empty
    string and whose prompt is built, as it is whenever the splash text
    and the style are strings or absent), the configuration alone picks
    the strategy.  With an API key the only outbound call is the one to
    the SDK; with no key but a base URL the only outbound call is a POST
    of the same parameters to baseUrl/v1/images/generations, baseUrl being
    the configured address less one trailing slash; with neither, the
    request fails with status 500 and nothing is sent. *)
Theorem strategy_by_configuration nd env body w topic prompt :
  has_string body "topic" topic ->
  prompt_is nd body topic prompt ->
  let params := image_request body prompt in
  let run := generateImage nd env body w in
  if configured (OPENAI_API_KEY env) then
    trace (snd run) = trace w ++ [EvImagesGenerate (env_value (OPENAI_API_KEY env)) params]
  else if configured (OPENAI_API_URL env) then
    trace (snd run) =
    trace w ++ [EvFetchData
                  (strip_trailing_slash (env_value (OPENAI_API_URL env))
                   +:+ "/v1/images/generations")
                  {| fo_method := "POST";
                     fo_headers := [("Content-Type", "application/json")];
                     fo_body := params |}]
  else
    run = (Ok (NextErr (CustomError "No OPENAI_API_KEY or OPENAI_API_URL configured" 500)), w).
Proof.
  intros H Hprompt. cbv zeta. unfold generateImage. cbv zeta.
  rewrite (topic_guard body topic H). destruct H as [Ht _]. rewrite Ht.
  fold (field body "splashText" (JStr EmptyString)).
  fold (field body "style" (JStr EmptyString)).
  fold (field body "size" (JStr "1024x1024")).
  fold (field body "model" (JStr "dall-e-2")).
  rewrite Hprompt. fold (image_request body prompt).
  destruct (configured (OPENAI_API_KEY env)) eqn:Hkey.
  - step_handler. split_ifs; reflexivity.
  - destruct (configured (OPENAI_API_URL env)) eqn:Hurl.
    + step_handler. split_ifs; reflexivity.
    + reflexivity.
Qed.

Lemma log_one {A} (l : list A) (x y : A) : l ++ [x] = l ++ [y] -> x = y.
Proof. intros H. apply app_inv_head in H. congruence. Qed.

Lemma log_none {A} (l : list A) (x : A) : l = l ++ [x] -> False.
Proof.
  intros H. apply (f_equal (@length A)) in H.
  rewrite length_app in H. simpl in H. lia.
Qed.

(** C4. In a request that starts with no url and no b64 in its locals,
    the generation stage hands over with [next()] only when the provider
    answered and the first data item of the answer exists and carries a
    url or a b64_json; then exactly one of the two locals is set, the url
    when the item has one, the b64 otherwise.  When the item exists and
    carries neither, the request fails with status 500. *)
Theorem generation_needs_image_data nd env body w :
  l_url (locals w) = JUndefined ->
  l_b64 (locals w) = JUndefined ->
  let run := generateImage nd env body w in
  (fst run = Ok Next ->
   exists call response,
     trace (snd run) = trace w ++ [call] /\
     answer_of nd call = Some (Ok response) /\
     truthy (first_item response) = true /\
     let item := first_item response in
     let l := locals (snd run) in
     (truthy (prop item "url") = true /\
      l_url l = prop item "url" /\ l_b64 l = JUndefined) \/
     (truthy (prop item "url") = false /\ truthy (prop item "b64_json") = true /\
      l_b64 l = prop item "b64_json" /\ l_url l = JUndefined)) /\
  (forall call response,
     trace (snd run) = trace w ++ [call] ->
     answer_of nd call = Some (Ok response) ->
     truthy (first_item response) = true ->
     truthy (prop (first_item response) "url") = false ->
     truthy (prop (first_item response) "b64_json") = false ->
     exists message, fst run = Ok (NextErr (CustomError message 500))).
Proof.
  intros Hurl Hb64. cbv zeta.
  unfold generateImage, first_item. cbv zeta. step_handler. split_ifs.
  all: cbn [fst snd trace locals l_url l_b64 negb] in *.
  all: split;
    [ intros Hnext; try discriminate Hnext
    | intros call response Hlog Hans Hitem Hno_url Hno_b64;
      try (exfalso; exact (log_none _ _ Hlog));
      apply log_one in Hlog; subst call; cbn [answer_of] in Hans;
      try congruence ].
  all: try (eexists; reflexivity).
  all: try (eexists _, _; split; [reflexivity|]; cbn [answer_of];
            match goal with H : _ = Ok _ |- _ => rewrite H end;
            split; [reflexivity|];
            split; [ apply negb_false_iff; assumption | ];
            cbv zeta; first [ left; repeat split; assumption || reflexivity
                            | right; repeat split; assumption || reflexivity ]).
Qed.

(** ** Persistence *)

Lemma topic_reading body :
  opt_prop body "topic" = prop (or_else body (JObj [])) "topic".
Proof.
  destruct body as [| |b|q|s|items|fields]; try reflexivity.
  - destruct b; reflexivity.
  - unfold or_else, opt_prop. simpl. destruct (Qnum q =? 0); reflexivity.
  - unfold or_else, opt_prop. simpl. destruct s; reflexivity.
Qed.

Lemma base_name_of_topic body topic :
  has_string body "topic" topic ->
  or_else (opt_prop body "topic") (JStr "image") = JStr topic.
Proof.
  intros [Hv Hne]. rewrite topic_reading, Hv. unfold or_else. simpl.
  apply String.eqb_neq in Hne. rewrite Hne. reflexivity.
Qed.

Lemma ensure_dir_ready nd w :
  uploads_ready nd w ->
  exists d, ensure_dir nd (uploads_dir nd) w =
            (Ok tt, {| locals := locals w; files := files w; dirs := d; trace := trace w |}).
Proof.
  intros H. unfold ensure_dir. case_bool_decide as Hin.
  - exists (dirs w). destruct w; reflexivity.
  - destruct H as [H|H]; [contradiction|]. rewrite H. eexists; reflexivity.
Qed.

Lemma ensure_dir_locals nd dir w r w' :
  ensure_dir nd dir w = (r, w') ->
  locals w' = locals w /\ trace w' = trace w /\ files w' = files w.
Proof.
  unfold ensure_dir. case_bool_decide.
  - intros [= <- <-]. auto.
  - destruct (mkdir_fault nd dir); intros [= <- <-]; auto.
Qed.

Lemma token_char_lower_keeps c :
  token_char (lower (if keeps c then c else "_"%char)) = true.
Proof. destruct c as [[] [] [] [] [] [] [] []]; reflexivity. Qed.

Lemma token_all topic : all_chars token_char (toLowerCase (sanitize topic)) = true.
Proof.
  induction topic as [|c rest IH]; [reflexivity|].
  simpl. rewrite token_char_lower_keeps, IH. reflexivity.
Qed.



Ltac step_fs :=
  cbv beta iota zeta delta
    [download pipe createWriteStream unlinkSync writeFileSync
     handler try_catch bind ret throw lift emit set_url set_b64 set_file set_thumb
     get_locals set_locals get_files set_files];
  cbn [fst snd trace locals files dirs l_url l_b64 l_file l_thumb].

Ltac fs_cases :=
  repeat (first
    [ rewrite lookup_insert_eq
    | match goal with
      | |- context [match ?r with Ok _ => _ | Throw _ => _ end] => destruct r eqn:?
      | |- context [match https_get ?n ?u with GetThrows _ => _ | _ => _ end] =>
          destruct (https_get n u) eqn:?
      | |- context [match write_fault ?n ?p with Some _ => _ | None => _ end] =>
          destruct (write_fault n p) eqn:?
      | |- context [match unlink_fault ?n ?p with Some _ => _ | None => _ end] =>
          destruct (unlink_fault n p) eqn:?
      | |- context [match ?f !! ?p with Some _ => _ | None => _ end] =>
          destruct (f !! p) eqn:?
      | |- context [if ?c then _ else _] => destruct c eqn:?
      end ];
    step_fs).

Lemma str_converts nd v s : converts_to nd v s -> str nd v = Ok s.
Proof. unfold converts_to, str, to_str. intros ->. reflexivity. Qed.







(** ** Generation, then persistence *)

Lemma truthy_prop_item item name : truthy (prop item name) = true -> truthy item = true.
Proof.
  destruct item as [| |b|q|s|items|fields]; try discriminate; try reflexivity.
  simpl. destruct (String.eqb name "length"); [|discriminate].
  destruct s; [discriminate|reflexivity].
Qed.

(** When the first item of the answer has a url, the generation stage
    stores it and leaves everything else of the world as it was. *)
Lemma generateImage_stores_url nd env body w call response :
  trace (snd (generateImage nd env body w)) = trace w ++ [call] ->
  answer_of nd call = Some (Ok response) ->
  truthy (prop (first_item response) "url") = true ->
  generateImage nd env body w =
  (Ok Next,
   {| locals := {| l_url := prop (first_item response) "url";
                   l_b64 := l_b64 (locals w);
                   l_file := l_file (locals w);
                   l_thumb := l_thumb (locals w) |};
      files := files w; dirs := dirs w; trace := trace w ++ [call] |}).
Proof.
  intros Hlog Hans Hitem. pose proof (truthy_prop_item _ _ Hitem) as Hsome.
  revert Hlog. unfold generateImage, first_item in *. cbv zeta. step_handler. split_ifs.
  all: cbn [fst snd trace] in *; intros Hlog.
  all: try (exfalso; exact (log_none _ _ Hlog)).
  all: apply log_one in Hlog; subst call; cbn [answer_of] in Hans.
  all: match goal with
       | H : ?x = _, H' : Some ?x = _ |- _ => rewrite H in H'; injection H' as H'
       end; try discriminate; subst.
  all: repeat match goal with
         | H : negb _ = true |- _ => rewrite negb_true_iff in H
         | H : negb _ = false |- _ => rewrite negb_false_iff in H
         end.
  all: cbn [locals l_url l_b64 l_file l_thumb]; try reflexivity.
  all: exfalso;
    match goal with
    | H : ?t = false, H' : ?t = true |- _ => rewrite H in H'; discriminate H'
    end.
Qed.

(** C10. When the first item of the provider's answer carries both a url
    and a b64_json, the generation stage hands over with [next()], stores
    the url and leaves the b64 local unset; the persistence stage then
    converts the url to a string and, when that succeeds, issues the
    download of that address; when the disk takes the file and the body
    arrives whole under a status the handler accepts, what ends up in
    the stored file is the downloaded body. *)
Theorem url_preferred_over_b64 nd env body w topic call response :
  has_string body "topic" topic ->
  l_b64 (locals w) = JUndefined ->
  trace (snd (generateImage nd env body w)) = trace w ++ [call] ->
  answer_of nd call = Some (Ok response) ->
  truthy (prop (first_item response) "url") = true ->
  truthy (prop (first_item response) "b64_json") = true ->
  let gen := generateImage nd env body w in
  let save := saveImage nd body (snd gen) in
  let url := prop (first_item response) "url" in
  fst gen = Ok Next /\
  l_url (locals (snd gen)) = url /\
  l_b64 (locals (snd gen)) = JUndefined /\
  (uploads_ready nd w ->
   forall imageUrl,
     converts_to nd url imageUrl ->
     trace (snd save) = trace w ++ [call; EvHttpsGet imageUrl] /\
     forall statusCode bytes,
       write_fault nd (image_path nd topic) = None ->
       https_get nd imageUrl = GetResponse statusCode bytes ->
       status_rejected statusCode = false ->
       fst save = Ok Next /\ files (snd save) !! image_path nd topic = Some bytes).
Proof.
  intros Htopic Hb64 Hlog Hans Hurl _. cbv zeta.
  rewrite (generateImage_stores_url nd env body w call response Hlog Hans Hurl).
  cbn [fst snd locals l_url l_b64]. rewrite Hb64.
  split; [reflexivity|]. split; [reflexivity|]. split; [reflexivity|].
  intros Hdir imageUrl Hconv.
  set (w1 := {| locals := _; files := files w; dirs := dirs w; trace := trace w ++ [call] |}).
  assert (Hdir1 : uploads_ready nd w1) by exact Hdir.
  destruct (ensure_dir_ready nd w1 Hdir1) as [d Hd].
  pose proof (base_name_of_topic body topic Htopic) as Hname.
  unfold saveImage, image_path, image_name. step_fs. rewrite Hd, Hname. step_fs.
  subst w1. cbn [locals l_url l_b64 truthy trace files]. rewrite Hurl. cbn [negb].
  rewrite (str_converts _ _ _ Hconv). step_fs.
  split.
  - fs_cases; cbn [fst snd trace]; rewrite <- app_assoc; reflexivity.
  - intros statusCode bytes Hfault Hget Hstatus.
    rewrite Hfault. step_fs. rewrite Hget, Hstatus. step_fs.
    split; [reflexivity|apply lookup_insert_eq].
Qed.

(** ** Thumbnailing *)

(** C9. The thumbnailing stage always hands over with [next()], never
    with an error.  With no file name in the locals it changes nothing
    and logs nothing.  When the resize throws, the locals stay as they
    were, and the response that follows is the 200 JSON body with the
    file, the url, and no thumb. *)
Theorem thumbnail_never_fails nd w :
  fst (makeThumbnail nd w) = Ok Next /\
  (file_given (l_file (locals w)) = false -> makeThumbnail nd w = (Ok Next, w)) /\
  (forall fileName e,
     l_file (locals w) = Some fileName ->
     fileName <> EmptyString ->
     sharp_present nd = true ->
     sharp_resize_png nd 320 180 (files w !! path_join nd (uploads_dir nd) fileName) = Throw e ->
     locals (snd (makeThumbnail nd w)) = locals w /\
     (l_thumb (locals w) = None ->
      fst (and_then (makeThumbnail nd) respondWithImage w) =
      Ok (Json (JObj [("file", JStr fileName); ("thumb", JUndefined);
                      ("url", l_url (locals w))])))).
Proof.
  split; [|split].
  - unfold makeThumbnail. step_fs.
    destruct (l_file (locals w)) as [fileName|]; [|reflexivity].
    destruct (String.eqb fileName EmptyString); [reflexivity|].
    destruct (negb (sharp_present nd)); step_fs; [reflexivity|].
    destruct (sharp_resize_png nd 320 180 _); reflexivity.
  - unfold makeThumbnail, file_given. step_fs.
    destruct (l_file (locals w)) as [fileName|]; [|reflexivity].
    destruct (String.eqb fileName EmptyString); [reflexivity|discriminate].
  - intros fileName e Hfile Hne Hsharp Hthrow.
    apply String.eqb_neq in Hne.
    unfold and_then, respondWithImage, makeThumbnail. step_fs.
    rewrite Hfile, Hne, Hsharp. cbn [negb]. step_fs. rewrite Hthrow. step_fs.
    split; [reflexivity|]. intros Hthumb. rewrite Hfile, Hthumb. reflexivity.
Qed.

(** ** The theorems at work on the stubs *)

Lemma strategy_by_configuration_witness :
  has_string Stub.space_request "topic" "space" /\
  trace (snd (generateImage Stub.quiet Stub.with_key Stub.space_request fresh_world)) =
  [EvImagesGenerate "sk-test" (image_request Stub.space_request Stub.space_prompt)] /\
  trace (snd (generateImage Stub.quiet Stub.with_url Stub.space_request fresh_world)) =
  [EvFetchData "https://llm.example/v1/images/generations"
     {| fo_method := "POST";
        fo_headers := [("Content-Type", "application/json")];
        fo_body := image_request Stub.space_request Stub.space_prompt |}] /\
  generateImage Stub.quiet Stub.unconfigured Stub.space_request fresh_world =
  (Ok (NextErr (CustomError "No OPENAI_API_KEY or OPENAI_API_URL configured" 500)),
   fresh_world).
Proof.
  assert (H : has_string Stub.space_request "topic" "space")
    by (split; [reflexivity|discriminate]).
  split; [exact H|]. split; [|split].
  - exact (strategy_by_configuration Stub.quiet Stub.with_key
             Stub.space_request fresh_world "space" Stub.space_prompt H eq_refl).
  - exact (strategy_by_configuration Stub.quiet Stub.with_url
             Stub.space_request fresh_world "space" Stub.space_prompt H eq_refl).
  - exact (strategy_by_configuration Stub.quiet Stub.unconfigured
             Stub.space_request fresh_world "space" Stub.space_prompt H eq_refl).
Defined.

Lemma generation_needs_image_data_witness :
  l_url (locals fresh_world) = JUndefined /\
  l_b64 (locals fresh_world) = JUndefined /\
  fst (generateImage Stub.quiet Stub.with_key Stub.space_request fresh_world) = Ok Next /\
  (exists call response,
     trace (snd (generateImage Stub.quiet Stub.with_key Stub.space_request fresh_world)) =
     trace fresh_world ++ [call] /\
     answer_of Stub.quiet call = Some (Ok response) /\
     truthy (first_item response) = true /\
     let item := first_item response in
     let l := locals (snd (generateImage Stub.quiet Stub.with_key
                             Stub.space_request fresh_world)) in
     (truthy (prop item "url") = true /\
      l_url l = prop item "url" /\ l_b64 l = JUndefined) \/
     (truthy (prop item "url") = false /\ truthy (prop item "b64_json") = true /\
      l_b64 l = prop item "b64_json" /\ l_url l = JUndefined)) /\
  (exists message,
     fst (generateImage Stub.stingy Stub.with_url Stub.space_request fresh_world) =
     Ok (NextErr (CustomError message 500))).
Proof.
  split; [reflexivity|]. split; [reflexivity|]. split; [reflexivity|]. split.
  - exact (proj1 (generation_needs_image_data Stub.quiet Stub.with_key
                    Stub.space_request fresh_world eq_refl eq_refl) eq_refl).
  - exact (proj2 (generation_needs_image_data Stub.stingy Stub.with_url
                    Stub.space_request fresh_world eq_refl eq_refl)
             _ (JObj [("created", JNum (1 # 1)); ("data", JArr [Stub.empty_item])])
             eq_refl eq_refl eq_refl eq_refl eq_refl).
Defined.

Lemma url_preferred_over_b64_witness :
  has_string Stub.space_request "topic" "space" /\
  truthy (prop Stub.both_item "b64_json") = true /\
  fst (generateImage Stub.generous Stub.with_key Stub.space_request fresh_world) = Ok Next /\
  l_url (locals (snd (generateImage Stub.generous Stub.with_key
                        Stub.space_request fresh_world))) =
  JStr "https://cdn.example/a.png" /\
  l_b64 (locals (snd (generateImage Stub.generous Stub.with_key
                        Stub.space_request fresh_world))) = JUndefined /\
  trace (snd (saveImage Stub.generous Stub.space_request
                (snd (generateImage Stub.generous Stub.with_key
                        Stub.space_request fresh_world)))) =
  [EvImagesGenerate "sk-test" (image_request Stub.space_request Stub.space_prompt);
   EvHttpsGet "https://cdn.example/a.png"] /\
  files (snd (saveImage Stub.generous Stub.space_request
                (snd (generateImage Stub.generous Stub.with_key
                        Stub.space_request fresh_world))))
    !! "/app/uploads/space_1700000000000.png" = Some Stub.downloaded.
Proof.
  assert (H : has_string Stub.space_request "topic" "space")
    by (split; [reflexivity|discriminate]).
  split; [exact H|]. split; [reflexivity|].
  pose proof (url_preferred_over_b64 Stub.generous Stub.with_key Stub.space_request
                fresh_world "space" _
                (JObj [("created", JNum (1 # 1)); ("data", JArr [Stub.both_item])])
                H eq_refl eq_refl eq_refl eq_refl eq_refl) as Hboth.
  cbv zeta in Hboth. destruct Hboth as (Hnext & Hurl & Hb64 & Hsave).
  split; [exact Hnext|]. split; [exact Hurl|]. split; [exact Hb64|].
  destruct (Hsave (or_intror eq_refl) "https://cdn.example/a.png" eq_refl)
    as [Hlog Hfile].
  split; [exact Hlog|].
  exact (proj2 (Hfile (Some 200) Stub.downloaded eq_refl eq_refl eq_refl)).
Defined.

Lemma thumbnail_never_fails_witness :
  l_file (locals (Stub.after_save "space_1700000000000.png")) =
  Some "space_1700000000000.png" /\
  fst (makeThumbnail Stub.no_thumb (Stub.after_save "space_1700000000000.png")) = Ok Next /\
  fst (and_then (makeThumbnail Stub.no_thumb) respondWithImage
         (Stub.after_save "space_1700000000000.png")) =
  Ok (Json (JObj [("file", JStr "space_1700000000000.png"); ("thumb", JUndefined);
                  ("url", JUndefined)])).
Proof.
  split; [reflexivity|].
  destruct (thumbnail_never_fails Stub.no_thumb (Stub.after_save "space_1700000000000.png"))
    as (Hnext & _ & Hthrow).
  split; [exact Hnext|].
  refine (proj2 (Hthrow "space_1700000000000.png"
                   (Foreign "Input buffer contains unsupported image format")
                   eq_refl _ eq_refl eq_refl) eq_refl).
  discriminate.
Defined.

(** The specification's own example: a topic, a provider that answers with
    a base64 payload, and the three references that come back. *)
Example space_thumbnail :
  fst (image_route Stub.quiet Stub.with_key Stub.space_request fresh_world) =
  Ok (Json (JObj [("file", JStr "space_1700000000000.png");
                  ("thumb", JStr "thumb_space_1700000000000.png");
                  ("url", JUndefined)])).
Proof. vm_compute. reflexivity. Qed.

Example space_without_thumbnail :
  fst (image_route Stub.no_thumb Stub.with_key Stub.space_request fresh_world) =
  Ok (Json (JObj [("file", JStr "space_1700000000000.png");
                  ("thumb", JUndefined);
                  ("url", JUndefined)])).
Proof. vm_compute. reflexivity. Qed.

End ImageProps.

(** * Properties of the comment controller *)

Module CommentProps.
Import Js Express CommentController Reading.

Ltac step_comment :=
  cbv beta iota zeta delta
    [handler try_catch bind ret throw lift emit member get_locals set_locals];
  cbn [fst snd trace locals files dirs].

Lemma text_guard_lacking body :
  lacks_string body "text" ->
  let v := prop (or_else body (JObj [])) "text" in
  negb (truthy v) || negb (is_string v) = true.
Proof.
  unfold lacks_string. intros Hv. cbv zeta. rewrite Hv. apply orb_true_r.
Qed.

(** A request without a string text is turned away before anything is
    sent. *)
Lemma commentPost_rejects nd env body w :
  lacks_string body "text" ->
  commentPost nd env body w = (Ok (NextErr (CustomError "No text provided" 400)), w).
Proof.
  intros H. unfold commentPost, handler, try_catch. cbv zeta.
  rewrite (text_guard_lacking body H). reflexivity.
Qed.

(** The expression the handler extracts the reply with computes the
    reply of the specification. *)
Lemma reply_reading choice :
  coalesce
    (coalesce (opt_prop (opt_prop choice "message") "content")
       (if is_string (opt_prop choice "text") then prop choice "text" else JStr EmptyString))
    (JStr EmptyString) = reply_of choice.
Proof.
  unfold reply_of, coalesce.
  assert (Htext : opt_prop choice "text" = JUndefined \/
                  opt_prop choice "text" = prop choice "text").
  { unfold opt_prop. destruct (nullish choice); auto. }
  destruct (nullish (opt_prop (opt_prop choice "message") "content")) eqn:Hc;
    cbn [negb]; [|rewrite Hc; reflexivity].
  destruct Htext as [-> | ->]; [reflexivity|].
  destruct (prop choice "text"); reflexivity.
Qed.

(** What the handler does once the provider has answered. *)
Lemma commentPost_answered nd env body w call completion :
  trace (snd (commentPost nd env body w)) = trace w ++ [call] ->
  answer_of nd call = Some (Ok completion) ->
  fst (commentPost nd env body w) =
  if negb (truthy (opt_prop (opt_prop completion "choices") "length")) then
    Ok (NextErr (CustomError "No completion choices returned" 500))
  else
    Ok (Json (JObj [("response", reply_of (first (prop completion "choices")));
                    ("raw", completion)])).
Proof.
  rewrite <- reply_reading.
  unfold commentPost. cbv zeta. step_comment.
  repeat match goal with
         | |- context [match ?r with Ok _ => _ | Throw _ => _ end] => destruct r eqn:?
         | |- context [if negb (truthy ?c) || ?d then _ else _] =>
             destruct (negb (truthy c) || d) eqn:?
         | |- context [if negb (configured ?c) then _ else _] =>
             destruct (negb (configured c)) eqn:?
         | |- context [if nullish ?c then _ else _] => destruct (nullish c) eqn:?
         | |- context [if negb (truthy (opt_prop (opt_prop ?a "choices") "length")) then _ else _] =>
             destruct (negb (truthy (opt_prop (opt_prop a "choices") "length"))) eqn:?
         end.
  all: cbn [fst snd trace]; intros Hlog Hans.
  all: try (exfalso; exact (ImageProps.log_none _ _ Hlog)).
  all: apply ImageProps.log_one in Hlog; subst call; cbn [answer_of] in Hans.
  all: match goal with
       | H : ?x = _, H' : Some ?x = _ |- _ => rewrite H in H'; injection H' as H'
       end; try discriminate; subst.
  all: try reflexivity.
  all: exfalso;
    match goal with
    | H : ?t = true, H' : ?t = false |- _ => rewrite H in H'; discriminate H'
    end.
Qed.

Lemma opt_prop_array v name items :
  opt_prop v name = JArr items -> prop v name = JArr items.
Proof. unfold opt_prop. destruct (nullish v); [discriminate|trivial]. Qed.

(** C5. Whenever the provider was called and its completion has no
    choices (an empty list, or none at all), the handler passes a
    CustomError with status 500 and the message No completion choices
    returned to [next], and so sends no response body. *)
Theorem no_choices_no_reply nd env body w call completion :
  trace (snd (commentPost nd env body w)) = trace w ++ [call] ->
  answer_of nd call = Some (Ok completion) ->
  opt_prop completion "choices" = JArr [] \/
  nullish (opt_prop completion "choices") = true ->
  fst (commentPost nd env body w) =
  Ok (NextErr (CustomError "No completion choices returned" 500)).
Proof.
  intros Hlog Hans Hnone.
  rewrite (commentPost_answered nd env body w call completion Hlog Hans).
  destruct Hnone as [-> | Hnull]; [reflexivity|].
  unfold opt_prop at 1. rewrite Hnull. reflexivity.
Qed.

Lemma no_choices_no_reply_witness :
  opt_prop (Stub.completion []) "choices" = JArr [] /\
  fst (commentPost (Stub.chat []) Stub.with_url Stub.comment_request fresh_world) =
  Ok (NextErr (CustomError "No completion choices returned" 500)) /\
  fst (commentPost (Stub.node (Ok JNull) (GetError (Foreign "unused")) (Ok []) None)
         Stub.with_url Stub.comment_request fresh_world) =
  Ok (NextErr (CustomError "No completion choices returned" 500)).
Proof.
  split; [reflexivity|]. split.
  - exact (no_choices_no_reply (Stub.chat []) Stub.with_url Stub.comment_request
             fresh_world _ (Stub.completion []) eq_refl eq_refl (or_introl eq_refl)).
  - exact (no_choices_no_reply (Stub.node (Ok JNull) (GetError (Foreign "unused")) (Ok []) None)
             Stub.with_url Stub.comment_request
             fresh_world _ JNull eq_refl eq_refl (or_intror eq_refl)).
Defined.

(** C6. Whenever the provider was called and its completion has at least
    one choice, the handler answers with the JSON body whose response is
    the reply read off the first choice (its message content when
    present, else its text when that is a string, else the empty string)
    and whose raw is the whole completion; an empty reply is answered
    the same way. *)
Theorem reply_from_first_choice nd env body w call completion choice rest :
  trace (snd (commentPost nd env body w)) = trace w ++ [call] ->
  answer_of nd call = Some (Ok completion) ->
  opt_prop completion "choices" = JArr (choice :: rest) ->
  fst (commentPost nd env body w) =
  Ok (Json (JObj [("response", reply_of choice); ("raw", completion)])).
Proof.
  intros Hlog Hans Hchoices.
  rewrite (commentPost_answered nd env body w call completion Hlog Hans).
  rewrite Hchoices, (opt_prop_array _ _ _ Hchoices). reflexivity.
Qed.

Lemma reply_from_first_choice_witness :
  fst (commentPost (Stub.chat [Stub.chat_choice (JStr "Thanks for watching!"); Stub.bare_choice])
         Stub.with_url Stub.comment_request fresh_world) =
  Ok (Json (JObj [("response", JStr "Thanks for watching!");
                  ("raw", Stub.completion [Stub.chat_choice (JStr "Thanks for watching!");
                                           Stub.bare_choice])])) /\
  fst (commentPost (Stub.chat [Stub.legacy_choice "Glad you liked it."])
         Stub.with_url Stub.comment_request fresh_world) =
  Ok (Json (JObj [("response", JStr "Glad you liked it.");
                  ("raw", Stub.completion [Stub.legacy_choice "Glad you liked it."])])) /\
  fst (commentPost (Stub.chat [Stub.chat_choice JNull])
         Stub.with_url Stub.comment_request fresh_world) =
  Ok (Json (JObj [("response", JStr EmptyString);
                  ("raw", Stub.completion [Stub.chat_choice JNull])])) /\
  fst (commentPost (Stub.chat [Stub.chat_choice (JStr EmptyString)])
         Stub.with_url Stub.comment_request fresh_world) =
  Ok (Json (JObj [("response", JStr EmptyString);
                  ("raw", Stub.completion [Stub.chat_choice (JStr EmptyString)])])).
Proof.
  split; [|split; [|split]].
  - exact (reply_from_first_choice (Stub.chat [Stub.chat_choice (JStr "Thanks for watching!"); Stub.bare_choice])
             Stub.with_url Stub.comment_request fresh_world _
             (Stub.completion [Stub.chat_choice (JStr "Thanks for watching!"); Stub.bare_choice])
             _ _ eq_refl eq_refl eq_refl).
  - exact (reply_from_first_choice (Stub.chat [Stub.legacy_choice "Glad you liked it."])
             Stub.with_url Stub.comment_request fresh_world _
             (Stub.completion [Stub.legacy_choice "Glad you liked it."])
             _ _ eq_refl eq_refl eq_refl).
  - exact (reply_from_first_choice (Stub.chat [Stub.chat_choice JNull])
             Stub.with_url Stub.comment_request fresh_world _
             (Stub.completion [Stub.chat_choice JNull])
             _ _ eq_refl eq_refl eq_refl).
  - exact (reply_from_first_choice (Stub.chat [Stub.chat_choice (JStr EmptyString)])
             Stub.with_url Stub.comment_request fresh_world _
             (Stub.completion [Stub.chat_choice (JStr EmptyString)])
             _ _ eq_refl eq_refl eq_refl).
Defined.

(** The message pair the handler sends for the specification's example
    request. *)
Example comment_request_sent :
  trace (snd (commentPost (Stub.chat []) Stub.with_url Stub.comment_request fresh_world)) =
  [EvFetchData "https://llm.example/v1/chat/completions"
     {| fo_method := "POST";
        fo_headers := [("Content-Type", "application/json")];
        fo_body :=
          JObj [("model", JStr "gpt-4o-mini");
                ("messages",
                 JArr [JObj [("role", JStr "system");
                             ("content", JStr "You are Responder. helpful and friendly. Adopt this tone: funny. Keep replies concise (1-2 short sentences), suitable for a YouTube comment. Do not include meta commentary about being an AI.")];
                       JObj [("role", JStr "user");
                             ("content", JStr ("A user commented: " +:+ dquote +:+ "Great video!" +:+ dquote +:+ ". Write a short reply (1-2 sentences) in the requested tone (funny)."))]]);
                ("temperature", JNum (7 # 10));
                ("max_tokens", JNum (150 # 1))] |}].
Proof. vm_compute. reflexivity. Qed.

End CommentProps.

(** * Both routes *)

Module RouteProps.
Import Js Express Reading.

(** C2. A comment request whose text is absent or not a string, and an
    image request whose topic is absent or not a string, get a
    CustomError with status 400 passed to [next]; the world, and with it
    the log of outbound calls, is left as it was: nothing is sent to the
    provider. *)
Theorem missing_field_is_rejected nd env body w :
  (lacks_string body "text" ->
   CommentController.commentPost nd env body w =
   (Ok (NextErr (CustomError "No text provided" 400)), w)) /\
  (lacks_string body "topic" ->
   ImageController.generateImage nd env body w =
   (Ok (NextErr (CustomError "topic (string) is required in request body" 400)), w)).
Proof.
  split.
  - apply CommentProps.commentPost_rejects.
  - apply ImageProps.generateImage_rejects.
Qed.

Lemma missing_field_is_rejected_witness :
  lacks_string (JObj [("text", JNum (5 # 1))]) "text" /\
  lacks_string JUndefined "topic" /\
  CommentController.commentPost Stub.quiet Stub.with_url
    (JObj [("text", JNum (5 # 1))]) fresh_world =
  (Ok (NextErr (CustomError "No text provided" 400)), fresh_world) /\
  ImageController.generateImage Stub.quiet Stub.with_key JUndefined fresh_world =
  (Ok (NextErr (CustomError "topic (string) is required in request body" 400)), fresh_world).
Proof.
  split; [reflexivity|]. split; [reflexivity|]. split.
  - exact (proj1 (missing_field_is_rejected Stub.quiet Stub.with_url
                    (JObj [("text", JNum (5 # 1))]) fresh_world) eq_refl).
  - exact (proj2 (missing_field_is_rejected Stub.quiet Stub.with_key
                    JUndefined fresh_world) eq_refl).
Defined.

End RouteProps.

(** * Further properties of the image controller *)

Module ImageExtras.
Import Js Express ImageController Reading Cases ImageProps.

(** ** Generation *)

Lemma truthy_with_default_empty v :
  truthy (with_default v (JStr EmptyString)) = truthy v.
Proof. destruct v; reflexivity. Qed.

(** A splash text or a style that is falsy (absent, null, empty, false,
    zero) adds no clause: the prompt is the opener, with the topic as it
    converts to a string, and the two fixed clauses. *)
Theorem makePrompt_skips_falsy nd topic splashText style t :
  converts_to nd topic t ->
  truthy splashText = false ->
  truthy style = false ->
  makePrompt nd topic splashText style =
  Ok (opener t +:+ " " +:+ composition_clause +:+ " " +:+ format_clause).
Proof.
  intros Htopic Hsplash Hstyle. unfold makePrompt. cbv zeta.
  rewrite !truthy_with_default_empty, Hsplash, Hstyle, (str_converts _ _ _ Htopic).
  reflexivity.
Qed.

Lemma makePrompt_skips_falsy_witness :
  makePrompt Stub.quiet (JStr "space") JNull (JStr EmptyString) =
  makePrompt Stub.quiet (JStr "space") JUndefined JUndefined.
Proof.
  rewrite (makePrompt_skips_falsy Stub.quiet (JStr "space") JNull (JStr EmptyString)
             "space" eq_refl eq_refl eq_refl).
  reflexivity.
Defined.

(** Whatever the request and the provider, the generation stage touches
    neither the disk nor the file and thumb locals, and it logs at most
    one event, a call to the provider. *)
Theorem generation_leaves_disk_alone nd env body w :
  files (snd (generateImage nd env body w)) = files w /\
  dirs (snd (generateImage nd env body w)) = dirs w /\
  l_file (locals (snd (generateImage nd env body w))) = l_file (locals w) /\
  l_thumb (locals (snd (generateImage nd env body w))) = l_thumb (locals w) /\
  (trace (snd (generateImage nd env body w)) = trace w \/
   exists call, provider_call call = true /\
                trace (snd (generateImage nd env body w)) = trace w ++ [call]).
Proof.
  unfold generateImage. cbv zeta. step_handler. split_ifs.
  all: cbn [fst snd trace locals files dirs l_url l_b64 l_file l_thumb].
  all: repeat split; try reflexivity.
  all: first [ left; reflexivity | right; eexists; split; [|reflexivity]; reflexivity ].
Qed.

(** When the provider's call throws, the error goes to [next] as it is
    and the locals stay as they were. *)
Theorem generation_passes_provider_error nd env body w call e :
  trace (snd (generateImage nd env body w)) = trace w ++ [call] ->
  answer_of nd call = Some (Throw e) ->
  fst (generateImage nd env body w) = Ok (NextErr e) /\
  locals (snd (generateImage nd env body w)) = locals w.
Proof.
  unfold generateImage. cbv zeta. step_handler. split_ifs.
  all: cbn [fst snd trace locals] in *; intros Hlog Hans.
  all: try (exfalso; exact (log_none _ _ Hlog)).
  all: apply log_one in Hlog; subst call; cbn [answer_of] in Hans.
  all: match goal with
       | H : ?x = _, H' : Some ?x = _ |- _ => rewrite H in H'; injection H' as H'
       end; try discriminate; subst.
  all: split; reflexivity.
Qed.

Lemma generation_passes_provider_error_witness :
  fst (generateImage down Stub.with_key Stub.space_request fresh_world) =
  Ok (NextErr (Foreign "503 Service Unavailable")) /\
  fst (generateImage down Stub.with_url Stub.space_request fresh_world) =
  Ok (NextErr (Foreign "503 Service Unavailable")).
Proof.
  split.
  - exact (proj1 (generation_passes_provider_error down Stub.with_key Stub.space_request
                    fresh_world _ (Foreign "503 Service Unavailable") eq_refl eq_refl)).
  - exact (proj1 (generation_passes_provider_error down Stub.with_url Stub.space_request
                    fresh_world _ (Foreign "503 Service Unavailable") eq_refl eq_refl)).
Defined.

(** When the provider answers without a first data item (no data, an
    empty list, a null item), the request fails with status 500, the
    message naming the strategy that was used, and the locals stay as
    they were. *)
Theorem generation_without_item nd env body w call response :
  trace (snd (generateImage nd env body w)) = trace w ++ [call] ->
  answer_of nd call = Some (Ok response) ->
  truthy (first_item response) = false ->
  fst (generateImage nd env body w) =
  Ok (NextErr (CustomError
                 (if configured (OPENAI_API_KEY env)
                  then "Image not generated (SDK returned no data)"
                  else "Image not generated (proxy returned no data)") 500)) /\
  locals (snd (generateImage nd env body w)) = locals w.
Proof.
  unfold generateImage, first_item. cbv zeta. step_handler. split_ifs.
  all: cbn [fst snd trace locals] in *; intros Hlog Hans Hitem.
  all: try (exfalso; exact (log_none _ _ Hlog)).
  all: apply log_one in Hlog; subst call; cbn [answer_of] in Hans.
  all: match goal with
       | H : ?x = _, H' : Some ?x = _ |- _ => rewrite H in H'; injection H' as H'
       end; try discriminate; subst.
  all: try (split; reflexivity).
  all: exfalso;
    match goal with
    | H : negb (truthy ?t) = false, H' : truthy ?t = false |- _ =>
        rewrite H' in H; discriminate H
    end.
Qed.

Lemma generation_without_item_witness :
  fst (generateImage no_data Stub.with_key Stub.space_request fresh_world) =
  Ok (NextErr (CustomError "Image not generated (SDK returned no data)" 500)) /\
  fst (generateImage (Stub.node (Ok JNull) (GetError (Foreign "unused")) (Ok []) None)
         Stub.with_url Stub.space_request fresh_world) =
  Ok (NextErr (CustomError "Image not generated (proxy returned no data)" 500)).
Proof.
  split.
  - exact (proj1 (generation_without_item no_data Stub.with_key Stub.space_request
                    fresh_world _ (JObj [("created", JNum (1 # 1)); ("data", JArr [])])
                    eq_refl eq_refl eq_refl)).
  - exact (proj1 (generation_without_item
                    (Stub.node (Ok JNull) (GetError (Foreign "unused")) (Ok []) None)
                    Stub.with_url Stub.space_request
                    fresh_world _ JNull eq_refl eq_refl eq_refl)).
Defined.

(** ** Persistence *)

Lemma ensure_dir_adds nd dir w u w1 :
  ensure_dir nd dir w = (Ok u, w1) -> dir ∈ dirs w1.
Proof.
  unfold ensure_dir. case_bool_decide as Hin.
  - intros [= _ <-]. exact Hin.
  - destruct (mkdir_fault nd dir); [discriminate|].
    intros [= _ <-]. cbn [dirs]. set_solver.
Qed.

Lemma name_not_empty base rest : String.eqb (base +:+ "_" +:+ rest) EmptyString = false.
Proof. destruct base; reflexivity. Qed.

Ltac save_cases Hd Hbase :=
  unfold saveImage; step_fs;
  match goal with
  | |- context [ensure_dir ?nd ?d ?w] =>
      let Hl := fresh "Hlocals" in
      let Ht := fresh "Htrace" in
      let Hf := fresh "Hfiles" in
      destruct (ensure_dir nd d w) as [[[]|?] ?] eqn:Hd;
      destruct (ensure_dir_locals _ _ _ _ _ Hd) as (Hl & Ht & Hf)
  end;
  step_fs;
  try match goal with
      | |- context [or_else ?a ?b] => destruct (or_else a b) eqn:Hbase
      end;
  step_fs.

(** What a successful persistence stage leaves behind. *)
Lemma saveImage_success nd body w w' :
  saveImage nd body w = (Ok Next, w') ->
  exists name,
    l_file (locals w') = Some name /\
    String.eqb name EmptyString = false /\
    is_Some (files w' !! path_join nd (uploads_dir nd) name) /\
    uploads_dir nd ∈ dirs w' /\
    l_url (locals w') = l_url (locals w) /\
    l_b64 (locals w') = l_b64 (locals w) /\
    l_thumb (locals w') = l_thumb (locals w).
Proof.
  save_cases Hd Hbase; try discriminate.
  pose proof (ensure_dir_adds _ _ _ _ _ Hd) as Hdir.
  fs_cases; try discriminate.
  all: intros [= <-]; cbn [locals l_file l_url l_b64 l_thumb files dirs].
  all: eexists; split; [reflexivity|]; split; [apply name_not_empty|].
  all: split; [rewrite lookup_insert_eq; eauto|]; rewrite Hlocals; auto.
Qed.

(** Whenever the persistence stage hands over with [next()], the locals
    name a file, the name is not empty, a file is on disk under that name
    in the uploads directory, and the directory exists. *)
Theorem stored_file_exists nd body w :
  fst (saveImage nd body w) = Ok Next ->
  exists name,
    l_file (locals (snd (saveImage nd body w))) = Some name /\
    file_given (Some name) = true /\
    is_Some (files (snd (saveImage nd body w)) !! path_join nd (uploads_dir nd) name) /\
    uploads_dir nd ∈ dirs (snd (saveImage nd body w)).
Proof.
  intros Hnext.
  destruct (saveImage nd body w) as [r w'] eqn:Hrun. cbn [fst snd] in *. subst r.
  destruct (saveImage_success nd body w w' Hrun) as (name & Hfile & Hne & Hdisk & Hdir & _).
  exists name. unfold file_given. rewrite Hne. auto.
Qed.

Lemma stored_file_exists_witness :
  fst (saveImage Stub.quiet Stub.space_request (Stub.after_save EmptyString)) = Ok Next /\
  exists name,
    l_file (locals (snd (saveImage Stub.quiet Stub.space_request
                           (Stub.after_save EmptyString)))) = Some name /\
    file_given (Some name) = true /\
    is_Some (files (snd (saveImage Stub.quiet Stub.space_request
                           (Stub.after_save EmptyString)))
               !! path_join Stub.quiet (uploads_dir Stub.quiet) name) /\
    uploads_dir Stub.quiet ∈ dirs (snd (saveImage Stub.quiet Stub.space_request
                                          (Stub.after_save EmptyString))).
Proof.
  split; [vm_compute; reflexivity|].
  apply (stored_file_exists Stub.quiet Stub.space_request (Stub.after_save EmptyString)).
  vm_compute. reflexivity.
Defined.

(** Whenever the persistence stage fails, the locals are as they were: no
    file name is left for the stages that follow. *)
Theorem failed_save_keeps_locals nd body w e :
  fst (saveImage nd body w) = Ok (NextErr e) ->
  locals (snd (saveImage nd body w)) = locals w.
Proof.
  save_cases Hd Hbase; try (intros _; cbn [snd]; assumption).
  fs_cases; try discriminate.
  all: intros _; cbn [snd locals]; assumption.
Qed.

Lemma failed_save_keeps_locals_witness :
  fst (saveImage Stub.not_found Stub.space_request
         (Stub.after_generation (JStr "https://cdn.example/a.png"))) =
  Ok (NextErr (JsError "Failed to download image, status 404")) /\
  l_file (locals (snd (saveImage Stub.not_found Stub.space_request
                         (Stub.after_generation (JStr "https://cdn.example/a.png"))))) = None.
Proof.
  split; [vm_compute; reflexivity|].
  rewrite (failed_save_keeps_locals Stub.not_found Stub.space_request
             (Stub.after_generation (JStr "https://cdn.example/a.png"))
             (JsError "Failed to download image, status 404")).
  - reflexivity.
  - vm_compute. reflexivity.
Defined.

(** With neither a payload nor a url in the locals, the persistence
    stage fails with status 500 and does nothing else: no file, no
    download, no change of the locals. *)
Theorem nothing_to_save nd body w base :
  or_else (opt_prop body "topic") (JStr "image") = JStr base ->
  uploads_ready nd w ->
  truthy (l_b64 (locals w)) = false ->
  truthy (l_url (locals w)) = false ->
  fst (saveImage nd body w) = Ok (NextErr (CustomError "No image URL or data to save" 500)) /\
  files (snd (saveImage nd body w)) = files w /\
  trace (snd (saveImage nd body w)) = trace w /\
  locals (snd (saveImage nd body w)) = locals w.
Proof.
  intros Hbase Hdir Hb64 Hurl.
  destruct (ensure_dir_ready nd w Hdir) as [d Hd].
  unfold saveImage. step_fs. rewrite Hd, Hbase. step_fs. rewrite Hb64, Hurl.
  cbn [negb fst snd files trace locals]. auto.
Qed.

Lemma nothing_to_save_witness :
  uploads_ready Stub.quiet fresh_world /\
  saveImage Stub.quiet Stub.space_request fresh_world =
  (Ok (NextErr (CustomError "No image URL or data to save" 500)),
   {| locals := fresh_locals; files := ∅; dirs := {[ "/app/uploads" ]} ∪ ∅; trace := [] |}) /\
  fst (saveImage Stub.quiet Stub.space_request fresh_world) =
  Ok (NextErr (CustomError "No image URL or data to save" 500)).
Proof.
  assert (Hready : uploads_ready Stub.quiet fresh_world) by (right; reflexivity).
  split; [exact Hready|]. split; [reflexivity|].
  exact (proj1 (nothing_to_save Stub.quiet Stub.space_request fresh_world "space"
                  eq_refl Hready eq_refl eq_refl)).
Defined.



(** A request whose topic is absent or falsy is stored under the name
    image, an underscore, the clock's reading and .png. *)
Theorem default_file_name nd body w :
  truthy (opt_prop body "topic") = false ->
  fst (saveImage nd body w) = Ok Next ->
  l_file (locals (snd (saveImage nd body w))) =
  Some ("image_" +:+ pretty (Date_now nd) +:+ ".png").
Proof.
  intros Htopic.
  assert (Hbase : or_else (opt_prop body "topic") (JStr "image") = JStr "image")
    by (unfold or_else; rewrite Htopic; reflexivity).
  unfold saveImage. step_fs. rewrite Hbase. step_fs.
  destruct (ensure_dir nd (uploads_dir nd) w) as [[[]|e] w1]; [|discriminate].
  step_fs. fs_cases; first [discriminate | reflexivity].
Qed.

Lemma default_file_name_witness :
  truthy (opt_prop (JObj [("style", JStr "cinematic")]) "topic") = false /\
  fst (saveImage Stub.quiet (JObj [("style", JStr "cinematic")])
         (Stub.after_save EmptyString)) = Ok Next /\
  l_file (locals (snd (saveImage Stub.quiet (JObj [("style", JStr "cinematic")])
                         (Stub.after_save EmptyString)))) =
  Some "image_1700000000000.png".
Proof.
  assert (Hnext : fst (saveImage Stub.quiet (JObj [("style", JStr "cinematic")])
                         (Stub.after_save EmptyString)) = Ok Next)
    by (vm_compute; reflexivity).
  split; [reflexivity|]. split; [exact Hnext|].
  exact (default_file_name Stub.quiet (JObj [("style", JStr "cinematic")])
           (Stub.after_save EmptyString) eq_refl Hnext).
Defined.

Lemma clean_char_kept c :
  token_char c = true -> lower (if keeps c then c else "_"%char) = c.
Proof. destruct c as [[] [] [] [] [] [] [] []]; (reflexivity || discriminate). Qed.

(** A topic that already consists of lower-case letters, digits, dashes
    and underscores is its own token; so sanitising twice is sanitising
    once. *)
Theorem clean_topic_is_its_token topic :
  (all_chars token_char topic = true -> toLowerCase (sanitize topic) = topic) /\
  toLowerCase (sanitize (toLowerCase (sanitize topic))) = toLowerCase (sanitize topic).
Proof.
  assert (Hfix : forall s, all_chars token_char s = true -> toLowerCase (sanitize s) = s).
  { induction s as [|c rest IH]; [reflexivity|].
    simpl. intros Hall. apply andb_true_iff in Hall as [Hc Hrest].
    rewrite (clean_char_kept c Hc), (IH Hrest). reflexivity. }
  split; [apply Hfix|]. apply Hfix, token_all.
Qed.

Lemma clean_topic_is_its_token_witness :
  all_chars token_char "deep-space_9" = true /\
  toLowerCase (sanitize "deep-space_9") = "deep-space_9".
Proof.
  split; [reflexivity|].
  exact (proj1 (clean_topic_is_its_token "deep-space_9") eq_refl).
Defined.

(** ** Thumbnailing *)

(** What the thumbnailing stage can and cannot change. *)
Lemma makeThumbnail_result nd w :
  exists w',
    makeThumbnail nd w = (Ok Next, w') /\
    l_url (locals w') = l_url (locals w) /\
    l_b64 (locals w') = l_b64 (locals w) /\
    l_file (locals w') = l_file (locals w) /\
    dirs w' = dirs w /\
    (forall p, is_Some (files w !! p) -> is_Some (files w' !! p)) /\
    (l_thumb (locals w') = l_thumb (locals w) \/
     exists name, l_file (locals w) = Some name /\
                  l_thumb (locals w') = Some ("thumb_" +:+ name)).
Proof.
  unfold makeThumbnail. step_fs.
  destruct (l_file (locals w)) as [fileName|] eqn:Hfile;
    [|eexists; split; [reflexivity|]; rewrite ?Hfile; auto 10].
  destruct (String.eqb fileName EmptyString);
    [eexists; split; [reflexivity|]; rewrite ?Hfile; auto 10|].
  destruct (negb (sharp_present nd)); step_fs;
    [eexists; split; [reflexivity|]; cbn [locals files dirs]; rewrite ?Hfile; auto 10|].
  destruct (sharp_resize_png nd 320 180 _) as [out|e]; step_fs.
  - eexists; split; [reflexivity|].
    cbn [locals files dirs l_url l_b64 l_file l_thumb].
    repeat split; try assumption.
    + intros p Hp. rewrite lookup_insert_is_Some'. auto.
    + right. eexists. split; reflexivity.
  - eexists; split; [reflexivity|]. cbn [locals files dirs]. rewrite ?Hfile. auto 10.
Qed.

(** The thumbnailing stage never changes the url, b64 and file locals nor
    the set of directories, never removes a file, and when it sets the
    thumb local, it sets it to thumb_ followed by the stored file's
    name. *)
Theorem thumbnail_touches_only_thumb nd w :
  l_url (locals (snd (makeThumbnail nd w))) = l_url (locals w) /\
  l_b64 (locals (snd (makeThumbnail nd w))) = l_b64 (locals w) /\
  l_file (locals (snd (makeThumbnail nd w))) = l_file (locals w) /\
  dirs (snd (makeThumbnail nd w)) = dirs w /\
  (forall p, is_Some (files w !! p) -> is_Some (files (snd (makeThumbnail nd w)) !! p)) /\
  (l_thumb (locals (snd (makeThumbnail nd w))) = l_thumb (locals w) \/
   exists name, l_file (locals w) = Some name /\
                l_thumb (locals (snd (makeThumbnail nd w))) = Some ("thumb_" +:+ name)).
Proof.
  destruct (makeThumbnail_result nd w) as (w' & -> & H). exact H.
Qed.

(** With a stored file, sharp present and a resize that succeeds, the
    stage resizes the stored bytes to the 320 by 180 box, writes the
    result under thumb_ followed by the file's name in the uploads
    directory, and records that name. *)
Theorem thumbnail_written nd w fileName out :
  l_file (locals w) = Some fileName ->
  fileName <> EmptyString ->
  sharp_present nd = true ->
  sharp_resize_png nd 320 180 (files w !! path_join nd (uploads_dir nd) fileName) = Ok out ->
  let thumbName := "thumb_" +:+ fileName in
  let thumbPath := path_join nd (uploads_dir nd) thumbName in
  fst (makeThumbnail nd w) = Ok Next /\
  l_thumb (locals (snd (makeThumbnail nd w))) = Some thumbName /\
  files (snd (makeThumbnail nd w)) = <[thumbPath := out]> (files w) /\
  trace (snd (makeThumbnail nd w)) =
  trace w ++ [EvSharp (path_join nd (uploads_dir nd) fileName) thumbPath].
Proof.
  intros Hfile Hne Hsharp Hout. apply String.eqb_neq in Hne. cbv zeta.
  unfold makeThumbnail. step_fs. rewrite Hfile, Hne, Hsharp. cbn [negb]. step_fs.
  rewrite Hout. step_fs. auto.
Qed.

Lemma thumbnail_written_witness :
  l_file (locals (Stub.after_save "space_1700000000000.png")) =
  Some "space_1700000000000.png" /\
  l_thumb (locals (snd (makeThumbnail Stub.quiet
                          (Stub.after_save "space_1700000000000.png")))) =
  Some "thumb_space_1700000000000.png" /\
  files (snd (makeThumbnail Stub.quiet (Stub.after_save "space_1700000000000.png")))
    !! "/app/uploads/thumb_space_1700000000000.png" = Some Stub.png.
Proof.
  split; [reflexivity|].
  assert (Hne : "space_1700000000000.png" <> EmptyString) by discriminate.
  destruct (thumbnail_written Stub.quiet (Stub.after_save "space_1700000000000.png")
              "space_1700000000000.png" Stub.png eq_refl Hne eq_refl eq_refl)
    as (_ & Hthumb & Hfiles & _).
  split; [exact Hthumb|]. rewrite Hfiles. apply lookup_insert_eq.
Defined.

(** ** The route as a whole *)

Lemma generateImage_outcome nd env body w :
  exists w', generateImage nd env body w = (Ok Next, w') \/
             exists e, generateImage nd env body w = (Ok (NextErr e), w').
Proof.
  unfold generateImage. cbv zeta. step_handler. split_ifs.
  all: eexists; first [ left; reflexivity | right; eexists; reflexivity ].
Qed.

Lemma generateImage_keeps_thumb nd env body w :
  l_thumb (locals (snd (generateImage nd env body w))) = l_thumb (locals w).
Proof.
  unfold generateImage. cbv zeta. step_handler. split_ifs. all: reflexivity.
Qed.

Lemma saveImage_outcome nd body w :
  exists w', saveImage nd body w = (Ok Next, w') \/
             (exists e, saveImage nd body w = (Ok (NextErr e), w')) \/
             saveImage nd body w = (Ok Pending, w').
Proof.
  save_cases Hd Hbase; try (eexists; right; left; eexists; reflexivity).
  fs_cases.
  all: eexists;
    first [ left; reflexivity
          | right; left; eexists; reflexivity
          | right; right; reflexivity ].
Qed.

(** Whenever the route answers with a response, the response names a
    stored file: its file is a non-empty name under which a file is on
    disk in the uploads directory, and its thumb is either absent or
    thumb_ followed by that name. *)
Theorem route_response_names_a_file nd env body w b :
  l_thumb (locals w) = None ->
  fst (image_route nd env body w) = Ok (Json b) ->
  exists name thumb,
    b = references (JStr name) thumb (l_url (locals (snd (image_route nd env body w)))) /\
    file_given (Some name) = true /\
    (thumb = JUndefined \/ thumb = JStr ("thumb_" +:+ name)) /\
    is_Some (files (snd (image_route nd env body w))
               !! path_join nd (uploads_dir nd) name).
Proof.
  intros Hthumb.
  pose proof (generateImage_keeps_thumb nd env body w) as Hkeep.
  destruct (image_route nd env body w) as [r wf] eqn:Hroute. cbn [fst snd].
  unfold image_route, and_then, bind in Hroute.
  destruct (generateImage_outcome nd env body w) as [w1 [Hg | [e Hg]]];
    rewrite Hg in *; cbn [fst snd] in *;
    [|injection Hroute as <- <-; discriminate].
  destruct (saveImage_outcome nd body w1) as [w2 [Hs | [[e Hs] | Hs]]];
    rewrite Hs in Hroute;
    [|injection Hroute as <- <-; discriminate..].
  destruct (saveImage_success nd body w1 w2 Hs)
    as (name & Hfile & Hne & Hdisk & _ & _ & _ & Hthumb2).
  destruct (makeThumbnail_result nd w2) as (w3 & Ht & _ & _ & Hfile3 & _ & Hkept & Hth).
  rewrite Ht in Hroute.
  unfold respondWithImage, bind, get_locals, ret in Hroute.
  injection Hroute as <- <-. intros [= <-].
  rewrite Hfile3, Hfile. cbn [opt_str].
  exists name, (opt_str (l_thumb (locals w3))).
  split; [reflexivity|]. split; [unfold file_given; rewrite Hne; reflexivity|].
  split; [|apply Hkept, Hdisk].
  destruct Hth as [Hsame | (name' & Hname' & Hset)].
  - left. rewrite Hsame, Hthumb2, Hkeep, Hthumb. reflexivity.
  - right. rewrite Hset. rewrite Hfile in Hname'. injection Hname' as <-. reflexivity.
Qed.

Lemma route_response_names_a_file_witness :
  l_thumb (locals fresh_world) = None /\
  fst (image_route Stub.quiet Stub.with_key Stub.space_request fresh_world) =
  Ok (Json (references (JStr "space_1700000000000.png")
              (JStr "thumb_space_1700000000000.png") JUndefined)) /\
  exists name thumb,
    references (JStr "space_1700000000000.png") (JStr "thumb_space_1700000000000.png")
      JUndefined =
    references (JStr name) thumb
      (l_url (locals (snd (image_route Stub.quiet Stub.with_key
                             Stub.space_request fresh_world)))) /\
    file_given (Some name) = true /\
    (thumb = JUndefined \/ thumb = JStr ("thumb_" +:+ name)) /\
    is_Some (files (snd (image_route Stub.quiet Stub.with_key
                           Stub.space_request fresh_world))
               !! path_join Stub.quiet (uploads_dir Stub.quiet) name).
Proof.
  assert (Hresp : fst (image_route Stub.quiet Stub.with_key Stub.space_request fresh_world) =
                  Ok (Json (references (JStr "space_1700000000000.png")
                              (JStr "thumb_space_1700000000000.png") JUndefined)))
    by (vm_compute; reflexivity).
  split; [reflexivity|]. split; [exact Hresp|].
  exact (route_response_names_a_file Stub.quiet Stub.with_key
           Stub.space_request fresh_world _ eq_refl Hresp).
Defined.

(** When the first item of the answer has no url but a b64_json, the
    generation stage stores the payload and leaves everything else of
    the world as it was. *)
Lemma generateImage_stores_b64 nd env body w call response :
  trace (snd (generateImage nd env body w)) = trace w ++ [call] ->
  answer_of nd call = Some (Ok response) ->
  truthy (prop (first_item response) "url") = false ->
  truthy (prop (first_item response) "b64_json") = true ->
  generateImage nd env body w =
  (Ok Next,
   {| locals := {| l_url := l_url (locals w);
                   l_b64 := prop (first_item response) "b64_json";
                   l_file := l_file (locals w);
                   l_thumb := l_thumb (locals w) |};
      files := files w; dirs := dirs w; trace := trace w ++ [call] |}).
Proof.
  intros Hlog Hans Hurl Hitem. pose proof (truthy_prop_item _ _ Hitem) as Hsome.
  revert Hlog. unfold generateImage, first_item in *. cbv zeta. step_handler. split_ifs.
  all: cbn [fst snd trace] in *; intros Hlog.
  all: try (exfalso; exact (log_none _ _ Hlog)).
  all: apply log_one in Hlog; subst call; cbn [answer_of] in Hans.
  all: match goal with
       | H : ?x = _, H' : Some ?x = _ |- _ => rewrite H in H'; injection H' as H'
       end; try discriminate; subst.
  all: repeat match goal with
         | H : negb _ = true |- _ => rewrite negb_true_iff in H
         | H : negb _ = false |- _ => rewrite negb_false_iff in H
         end.
  all: cbn [locals l_url l_b64 l_file l_thumb]; try reflexivity.
  all: exfalso;
    match goal with
    | H : ?t = false, H' : ?t = true |- _ => rewrite H in H'; discriminate H'
    end.
Qed.

(** The route end to end on a payload.  For a request with a topic, a
    provider whose first item carries no url and a b64_json that
    converts to a string, a disk that takes the write and a resize that
    succeeds on the decoded bytes, the response names the stored file
    and its thumbnail and carries no url; the decoded bytes and the
    resized bytes are on disk under those names. *)
Theorem route_with_payload nd env body w topic call response payload out :
  has_string body "topic" topic ->
  l_url (locals w) = JUndefined ->
  uploads_ready nd w ->
  trace (snd (generateImage nd env body w)) = trace w ++ [call] ->
  answer_of nd call = Some (Ok response) ->
  truthy (prop (first_item response) "url") = false ->
  truthy (prop (first_item response) "b64_json") = true ->
  converts_to nd (prop (first_item response) "b64_json") payload ->
  write_fault nd (image_path nd topic) = None ->
  sharp_present nd = true ->
  let decoded := Buffer_from_base64 nd payload in
  sharp_resize_png nd 320 180 (Some decoded) = Ok out ->
  let name := image_name nd topic in
  let thumb := "thumb_" +:+ name in
  fst (image_route nd env body w) =
  Ok (Json (references (JStr name) (JStr thumb) JUndefined)) /\
  files (snd (image_route nd env body w)) =
  <[path_join nd (uploads_dir nd) thumb := out]>
    (<[path_join nd (uploads_dir nd) name := decoded]> (files w)).
Proof.
  intros Htopic Hno_url Hdir Hlog Hans Hurl Hb64 Hconv Hwrite Hsharp decoded Hout.
  cbv zeta.
  pose proof (base_name_of_topic body topic Htopic) as Hbase.
  unfold image_route, and_then, bind.
  rewrite (generateImage_stores_b64 nd env body w call response Hlog Hans Hurl Hb64).
  set (w1 := {| locals := _; files := files w; dirs := dirs w; trace := trace w ++ [call] |}).
  assert (Hdir1 : uploads_ready nd w1) by exact Hdir.
  destruct (ensure_dir_ready nd w1 Hdir1) as [d Hd].
  unfold saveImage, image_path, image_name in *. step_fs. rewrite Hd, Hbase. step_fs.
  subst w1. cbn [locals l_url l_b64 l_file l_thumb files dirs trace].
  rewrite Hb64, (str_converts _ _ _ Hconv). step_fs. rewrite Hwrite. step_fs.
  unfold makeThumbnail. step_fs. rewrite name_not_empty, Hsharp. cbn [negb]. step_fs.
  rewrite lookup_insert_eq. fold decoded. rewrite Hout. step_fs.
  unfold respondWithImage. step_fs. rewrite Hno_url. split; reflexivity.
Qed.

Lemma route_with_payload_witness :
  has_string Stub.space_request "topic" "space" /\
  uploads_ready Stub.quiet fresh_world /\
  fst (image_route Stub.quiet Stub.with_url Stub.space_request fresh_world) =
  Ok (Json (references (JStr "space_1700000000000.png")
              (JStr "thumb_space_1700000000000.png") JUndefined)).
Proof.
  assert (Htopic : has_string Stub.space_request "topic" "space")
    by (split; [reflexivity|discriminate]).
  assert (Hready : uploads_ready Stub.quiet fresh_world) by (right; reflexivity).
  split; [exact Htopic|]. split; [exact Hready|].
  exact (proj1 (route_with_payload Stub.quiet Stub.with_url Stub.space_request fresh_world
                  "space" _ (JObj [("created", JNum (1 # 1)); ("data", JArr [Stub.b64_item])])
                  "iVBORw0KGgo=" Stub.png
                  Htopic eq_refl Hready eq_refl eq_refl eq_refl eq_refl
                  eq_refl eq_refl eq_refl eq_refl)).
Defined.

(** The route end to end on a url.  For a request with a topic, a
    provider whose first item carries a url that converts to a string,
    a disk that takes the file, a download whose body arrives whole
    under a status the handler accepts, and a resize that succeeds on
    the downloaded bytes, the response names the stored file and its
    thumbnail and repeats the provider's url; the downloaded bytes and
    the resized bytes are on disk under those names. *)
Theorem route_with_url nd env body w topic call response imageUrl statusCode bytes out :
  has_string body "topic" topic ->
  l_b64 (locals w) = JUndefined ->
  uploads_ready nd w ->
  trace (snd (generateImage nd env body w)) = trace w ++ [call] ->
  answer_of nd call = Some (Ok response) ->
  truthy (prop (first_item response) "url") = true ->
  converts_to nd (prop (first_item response) "url") imageUrl ->
  write_fault nd (image_path nd topic) = None ->
  https_get nd imageUrl = GetResponse statusCode bytes ->
  status_rejected statusCode = false ->
  sharp_present nd = true ->
  sharp_resize_png nd 320 180 (Some bytes) = Ok out ->
  let name := image_name nd topic in
  let thumb := "thumb_" +:+ name in
  fst (image_route nd env body w) =
  Ok (Json (references (JStr name) (JStr thumb) (prop (first_item response) "url"))) /\
  files (snd (image_route nd env body w)) =
  <[path_join nd (uploads_dir nd) thumb := out]>
    (<[path_join nd (uploads_dir nd) name := bytes]>
       (<[path_join nd (uploads_dir nd) name := []]> (files w))).
Proof.
  intros Htopic Hno_b64 Hdir Hlog Hans Hurl Hconv Hwrite Hget Hstatus Hsharp Hout.
  cbv zeta.
  pose proof (base_name_of_topic body topic Htopic) as Hbase.
  unfold image_route, and_then, bind.
  rewrite (generateImage_stores_url nd env body w call response Hlog Hans Hurl).
  set (w1 := {| locals := _; files := files w; dirs := dirs w; trace := trace w ++ [call] |}).
  assert (Hdir1 : uploads_ready nd w1) by exact Hdir.
  destruct (ensure_dir_ready nd w1 Hdir1) as [d Hd].
  unfold saveImage, image_path, image_name in *. step_fs. rewrite Hd, Hbase. step_fs.
  subst w1. cbn [locals l_url l_b64 l_file l_thumb files dirs trace].
  rewrite Hno_b64, Hurl, (str_converts _ _ _ Hconv). cbn [truthy negb]. step_fs.
  rewrite Hwrite. step_fs. rewrite Hget, Hstatus. step_fs.
  unfold makeThumbnail. step_fs. rewrite name_not_empty, Hsharp. cbn [negb]. step_fs.
  rewrite lookup_insert_eq. rewrite Hout. step_fs.
  unfold respondWithImage. step_fs. split; reflexivity.
Qed.

Lemma route_with_url_witness :
  has_string Stub.space_request "topic" "space" /\
  uploads_ready remote fresh_world /\
  fst (image_route remote Stub.with_key Stub.space_request fresh_world) =
  Ok (Json (references (JStr "space_1700000000000.png")
              (JStr "thumb_space_1700000000000.png")
              (JStr "https://cdn.example/a.png"))) /\
  files (snd (image_route remote Stub.with_key Stub.space_request fresh_world))
    !! "/app/uploads/space_1700000000000.png" = Some Stub.downloaded.
Proof.
  assert (Htopic : has_string Stub.space_request "topic" "space")
    by (split; [reflexivity|discriminate]).
  assert (Hready : uploads_ready remote fresh_world) by (right; reflexivity).
  split; [exact Htopic|]. split; [exact Hready|].
  destruct (route_with_url remote Stub.with_key Stub.space_request fresh_world
              "space" _ (JObj [("created", JNum (1 # 1)); ("data", JArr [Stub.url_item])])
              "https://cdn.example/a.png" (Some 200) Stub.downloaded Stub.png
              Htopic eq_refl Hready eq_refl eq_refl eq_refl eq_refl eq_refl eq_refl
              eq_refl eq_refl eq_refl)
    as [Hresp Hfiles].
  split; [exact Hresp|]. rewrite Hfiles. vm_compute. reflexivity.
Defined.

(** ** Requests that never get an answer, and values that do not convert *)



(** A style or a splash text that is truthy but does not convert to a
    string (an object with a toString entry of its own) makes the
    generation stage pass a TypeError to [next] while it builds the
    prompt: nothing is sent to the provider and the world is as it
    was. *)
Theorem unconvertible_option_is_a_type_error nd env body w topic :
  has_string body "topic" topic ->
  (truthy (field body "style" (JStr EmptyString)) = true /\
   to_string (Number_toString nd) (field body "style" (JStr EmptyString)) = None) \/
  (truthy (field body "splashText" (JStr EmptyString)) = true /\
   to_string (Number_toString nd) (field body "splashText" (JStr EmptyString)) = None) ->
  exists message,
    generateImage nd env body w = (Ok (NextErr (TypeError message)), w).
Proof.
  intros Htopic Hbad. unfold field in Hbad.
  unfold generateImage. cbv zeta.
  rewrite (topic_guard body topic Htopic). destruct Htopic as [Ht _]. rewrite Ht.
  unfold makePrompt. cbv zeta.
  assert (Hsame : forall v, with_default (with_default v (JStr EmptyString)) (JStr EmptyString)
                            = with_default v (JStr EmptyString))
    by (intros []; reflexivity).
  rewrite !Hsame. unfold str, to_str. cbn [to_string rbind].
  set (style := with_default (prop (or_else body (JObj [])) "style") (JStr EmptyString)) in *.
  set (splashText :=
         with_default (prop (or_else body (JObj [])) "splashText") (JStr EmptyString)) in *.
  destruct Hbad as [[Htruthy Hnone] | [Htruthy Hnone]].
  - rewrite Htruthy, Hnone. cbn [rbind]. step_handler. eexists. reflexivity.
  - rewrite Htruthy, Hnone.
    destruct (truthy style); [destruct (to_string _ style)|];
      cbn [rbind]; step_handler; eexists; reflexivity.
Qed.

Lemma unconvertible_option_is_a_type_error_witness :
  has_string unconvertible_style_request "topic" "space" /\
  exists message,
    generateImage Stub.quiet Stub.with_key unconvertible_style_request fresh_world =
    (Ok (NextErr (TypeError message)), fresh_world).
Proof.
  assert (Htopic : has_string unconvertible_style_request "topic" "space")
    by (split; [reflexivity|discriminate]).
  split; [exact Htopic|].
  exact (unconvertible_option_is_a_type_error Stub.quiet Stub.with_key
           unconvertible_style_request fresh_world "space" Htopic
           (or_introl (conj eq_refl eq_refl))).
Defined.

(** ** The uploads directory and the clock *)



Lemma length_app (a b : string) :
  String.length (a +:+ b) = (String.length a + String.length b)%nat.
Proof.
  induction a as [|c a IH]; [reflexivity|].
  change (S (String.length (a +:+ b)) = S (String.length a + String.length b)).
  rewrite IH. reflexivity.
Qed.

Lemma app_suffix_inj (a b t : string) : a +:+ t = b +:+ t -> a = b.
Proof.
  revert b. induction a as [|c a IH]; intros [|d b] H.
  - reflexivity.
  - apply (f_equal String.length) in H. rewrite !length_app in H. simpl in H. lia.
  - apply (f_equal String.length) in H. rewrite !length_app in H. simpl in H. lia.
  - change (String c (a +:+ t) = String d (b +:+ t)) in H.
    injection H as -> H. f_equal. exact (IH b H).
Qed.

(** The name a successful persistence stage leaves, by the request. *)
Lemma saveImage_name nd body w :
  fst (saveImage nd body w) = Ok Next ->
  exists base,
    or_else (opt_prop body "topic") (JStr "image") = JStr base /\
    l_file (locals (snd (saveImage nd body w))) = Some (image_name nd base).
Proof.
  unfold image_name. save_cases Hd Hbase; try discriminate.
  intros Hnext. eexists. split; [reflexivity|]. revert Hnext.
  fs_cases; try discriminate; reflexivity.
Qed.

(** Two successful runs of the persistence stage on the same request
    leave the same file name exactly when the clock read the same
    millisecond in both: a later reading gives a new name, an equal
    reading gives the name again. *)
Theorem same_name_iff_same_clock nd1 nd2 body w1 w2 :
  fst (saveImage nd1 body w1) = Ok Next ->
  fst (saveImage nd2 body w2) = Ok Next ->
  l_file (locals (snd (saveImage nd1 body w1))) =
  l_file (locals (snd (saveImage nd2 body w2))) <->
  Date_now nd1 = Date_now nd2.
Proof.
  intros H1 H2.
  destruct (saveImage_name nd1 body w1 H1) as (base1 & Hb1 & ->).
  destruct (saveImage_name nd2 body w2 H2) as (base2 & Hb2 & ->).
  rewrite Hb1 in Hb2. injection Hb2 as <-. unfold image_name. split.
  - intros [= Heq].
    apply (inj (String.app _)) in Heq. apply (inj (String.app _)) in Heq.
    apply app_suffix_inj in Heq. exact (inj pretty _ _ Heq).
  - intros ->. reflexivity.
Qed.

Lemma same_name_iff_same_clock_witness :
  fst (saveImage Stub.quiet Stub.space_request (Stub.after_save EmptyString)) = Ok Next /\
  fst (saveImage Stub.generous Stub.space_request
         (Stub.after_generation (JStr "https://cdn.example/a.png"))) = Ok Next /\
  l_file (locals (snd (saveImage Stub.quiet Stub.space_request
                         (Stub.after_save EmptyString)))) =
  l_file (locals (snd (saveImage Stub.generous Stub.space_request
                         (Stub.after_generation (JStr "https://cdn.example/a.png"))))).
Proof.
  assert (H1 : fst (saveImage Stub.quiet Stub.space_request
                      (Stub.after_save EmptyString)) = Ok Next)
    by (vm_compute; reflexivity).
  assert (H2 : fst (saveImage Stub.generous Stub.space_request
                      (Stub.after_generation (JStr "https://cdn.example/a.png"))) = Ok Next)
    by (vm_compute; reflexivity).
  split; [exact H1|]. split; [exact H2|].
  exact (proj2 (same_name_iff_same_clock Stub.quiet Stub.generous Stub.space_request
                  _ _ H1 H2) eq_refl).
Defined.

End ImageExtras.

(** * Further properties of the comment controller *)

Module CommentExtras.
Import Js Express CommentController Reading Cases CommentProps.

Lemma text_guard body text :
  has_string body "text" text ->
  let v := prop (or_else body (JObj [])) "text" in
  negb (truthy v) || negb (is_string v) = false.
Proof.
  intros [Hv Hne]. cbv zeta. rewrite Hv. simpl.
  apply String.eqb_neq in Hne. rewrite Hne. reflexivity.
Qed.

Ltac comment_ifs :=
  repeat match goal with
         | |- context [match ?r with Ok _ => _ | Throw _ => _ end] => destruct r eqn:?
         | |- context [if negb (truthy ?c) || ?d then _ else _] =>
             destruct (negb (truthy c) || d) eqn:?
         | |- context [if negb (configured ?c) then _ else _] =>
             destruct (negb (configured c)) eqn:?
         | |- context [if nullish ?c then _ else _] => destruct (nullish c) eqn:?
         | |- context [if negb (truthy (opt_prop (opt_prop ?a "choices") "length")) then _ else _] =>
             destruct (negb (truthy (opt_prop (opt_prop a "choices") "length"))) eqn:?
         end.

(** A comment request with a text but no configured base address fails
    with status 500, and nothing is sent. *)
Theorem comment_needs_base_url nd env body w text :
  has_string body "text" text ->
  configured (OPENAI_API_URL env) = false ->
  commentPost nd env body w = (Ok (NextErr (CustomError "No API url found" 500)), w).
Proof.
  intros Htext Hurl. unfold commentPost, handler, try_catch. cbv zeta.
  rewrite (text_guard body text Htext), Hurl. reflexivity.
Qed.

Lemma comment_needs_base_url_witness :
  has_string Stub.comment_request "text" "Great video!" /\
  commentPost Stub.quiet Stub.with_key Stub.comment_request fresh_world =
  (Ok (NextErr (CustomError "No API url found" 500)), fresh_world).
Proof.
  assert (Htext : has_string Stub.comment_request "text" "Great video!")
    by (split; [reflexivity|discriminate]).
  split; [exact Htext|].
  exact (comment_needs_base_url Stub.quiet Stub.with_key Stub.comment_request
           fresh_world "Great video!" Htext eq_refl).
Defined.

(** The one request a valid comment sends, when every value the
    messages quote converts to a string (the style; the responder's
    name and persona where they are truthy): a POST to the base address
    less one trailing slash, followed by /v1/chat/completions; a bearer
    header exactly when a key is configured; model, temperature and
    max_tokens as given or defaulted; a system message made of the
    responder's name when it has one, its persona or else the fixed
    assistant line, the tone and the fixed instruction, joined by single
    spaces; a user message that quotes the text and names the tone. *)
Theorem comment_request_envelope nd env body w text tone who manner :
  has_string body "text" text ->
  configured (OPENAI_API_URL env) = true ->
  let responder := field body "responder" default_responder in
  nullish responder = false ->
  converts_to nd (field body "style" (JStr "nice")) tone ->
  (truthy (prop responder "name") = true -> converts_to nd (prop responder "name") who) ->
  (truthy (prop responder "persona") = true ->
   converts_to nd (prop responder "persona") manner) ->
  trace (snd (commentPost nd env body w)) =
  trace w ++
  [EvFetchData
     (strip_trailing_slash (env_value (OPENAI_API_URL env)) +:+ "/v1/chat/completions")
     {| fo_method := "POST";
        fo_headers :=
          ("Content-Type", "application/json")
          :: (if configured (OPENAI_API_KEY env)
              then [("Authorization", "Bearer " +:+ env_value (OPENAI_API_KEY env))]
              else []);
        fo_body :=
          JObj [("model", field body "model" (JStr "gpt-4o-mini"));
                ("messages",
                 JArr [JObj [("role", JStr "system");
                             ("content",
                              JStr (join " "
                                      ((if truthy (prop responder "name")
                                        then ["You are " +:+ who +:+ "."] else [])
                                       ++ (if truthy (prop responder "persona")
                                           then [manner +:+ "."]
                                           else ["You are a helpful assistant."])
                                       ++ ["Adopt this tone: " +:+ tone +:+ ".";
                                           "Keep replies concise (1-2 short sentences), suitable for a YouTube comment. Do not include meta commentary about being an AI."])))];
                       JObj [("role", JStr "user");
                             ("content",
                              JStr ("A user commented: " +:+ dquote +:+ text +:+ dquote
                                    +:+ ". Write a short reply (1-2 sentences) in the requested tone ("
                                    +:+ tone +:+ ")."))]]);
                ("temperature", field body "temperature" (JNum (7 # 10)));
                ("max_tokens", field body "max_tokens" (JNum (150 # 1)))] |}].
Proof.
  intros Htext Hurl responder Hresp Htone Hwho Hmanner. subst responder.
  unfold field, converts_to in *.
  unfold commentPost. cbv zeta. step_comment.
  rewrite (text_guard body text Htext), Hurl, Hresp. cbn [negb].
  destruct Htext as [Hv _]. rewrite Hv. unfold str, to_str. rewrite Htone.
  cbn [to_string rbind].
  destruct (truthy (prop _ "name")); [rewrite (Hwho eq_refl)|];
    (destruct (truthy (prop _ "persona")); [rewrite (Hmanner eq_refl)|]);
    cbn [rbind fst snd trace app];
    (destruct (fetchData nd _ _) as [completion|e]; cbn [fst snd trace]; [|reflexivity]);
    destruct (negb (truthy (opt_prop (opt_prop completion "choices") "length")));
    reflexivity.
Qed.

Lemma comment_request_envelope_witness :
  has_string tuned_request "text" "Great video!" /\
  trace (snd (commentPost (Stub.chat []) with_both tuned_request fresh_world)) =
  [EvFetchData "https://llm.example/v1/chat/completions"
     {| fo_method := "POST";
        fo_headers := [("Content-Type", "application/json");
                       ("Authorization", "Bearer sk-test")];
        fo_body :=
          JObj [("model", JStr "gpt-4o");
                ("messages",
                 JArr [JObj [("role", JStr "system");
                             ("content",
                              JStr "You are Responder. helpful and friendly. Adopt this tone: nice. Keep replies concise (1-2 short sentences), suitable for a YouTube comment. Do not include meta commentary about being an AI.")];
                       JObj [("role", JStr "user");
                             ("content", JStr ("A user commented: " +:+ dquote +:+ "Great video!" +:+ dquote +:+ ". Write a short reply (1-2 sentences) in the requested tone (nice)."))]]);
                ("temperature", JNum (1 # 5));
                ("max_tokens", JNum (60 # 1))] |}].
Proof.
  assert (Htext : has_string tuned_request "text" "Great video!")
    by (split; [reflexivity|discriminate]).
  split; [exact Htext|].
  exact (comment_request_envelope (Stub.chat []) with_both tuned_request fresh_world
           "Great video!" "nice" "Responder" "helpful and friendly"
           Htext eq_refl eq_refl eq_refl (fun _ => eq_refl) (fun _ => eq_refl)).
Defined.

(** A style that does not convert to a string (an object with a
    toString entry of its own) makes the comment handler pass a
    TypeError to [next] while it builds the system message: nothing is
    sent to the provider and the world is as it was. *)
Theorem unconvertible_style_stops_the_comment nd env body w text :
  has_string body "text" text ->
  configured (OPENAI_API_URL env) = true ->
  let responder := field body "responder" default_responder in
  nullish responder = false ->
  (truthy (prop responder "name") = true ->
   to_string (Number_toString nd) (prop responder "name") <> None) ->
  (truthy (prop responder "persona") = true ->
   to_string (Number_toString nd) (prop responder "persona") <> None) ->
  to_string (Number_toString nd) (field body "style" (JStr "nice")) = None ->
  exists message,
    commentPost nd env body w = (Ok (NextErr (TypeError message)), w).
Proof.
  intros Htext Hurl responder Hresp Hwho Hmanner Htone. subst responder.
  unfold field in *.
  unfold commentPost. cbv zeta. step_comment.
  rewrite (text_guard body text Htext), Hurl, Hresp. cbn [negb].
  unfold str, to_str. rewrite Htone.
  destruct (truthy (prop _ "name")).
  - destruct (to_string _ (prop _ "name")); [|exfalso; exact (Hwho eq_refl eq_refl)].
    destruct (truthy (prop _ "persona")).
    + destruct (to_string _ (prop _ "persona")); [|exfalso; exact (Hmanner eq_refl eq_refl)].
      cbn [rbind fst snd]. eexists. reflexivity.
    + cbn [rbind fst snd]. eexists. reflexivity.
  - destruct (truthy (prop _ "persona")).
    + destruct (to_string _ (prop _ "persona")); [|exfalso; exact (Hmanner eq_refl eq_refl)].
      cbn [rbind fst snd]. eexists. reflexivity.
    + cbn [rbind fst snd]. eexists. reflexivity.
Qed.

Lemma unconvertible_style_stops_the_comment_witness :
  has_string unconvertible_style_comment "text" "Great video!" /\
  exists message,
    commentPost (Stub.chat []) Stub.with_url unconvertible_style_comment fresh_world =
    (Ok (NextErr (TypeError message)), fresh_world).
Proof.
  assert (Htext : has_string unconvertible_style_comment "text" "Great video!")
    by (split; [reflexivity|discriminate]).
  split; [exact Htext|].
  refine (unconvertible_style_stops_the_comment (Stub.chat []) Stub.with_url
            unconvertible_style_comment fresh_world "Great video!"
            Htext eq_refl eq_refl _ _ eq_refl); intros _; discriminate.
Defined.

(** When the call to the provider throws, the error goes to [next] as
    it is, and no response is sent. *)
Theorem comment_passes_provider_error nd env body w call e :
  trace (snd (commentPost nd env body w)) = trace w ++ [call] ->
  answer_of nd call = Some (Throw e) ->
  fst (commentPost nd env body w) = Ok (NextErr e).
Proof.
  unfold commentPost. cbv zeta. step_comment. comment_ifs.
  all: cbn [fst snd trace]; intros Hlog Hans.
  all: try (exfalso; exact (ImageProps.log_none _ _ Hlog)).
  all: apply ImageProps.log_one in Hlog; subst call; cbn [answer_of] in Hans.
  all: match goal with
       | H : ?x = _, H' : Some ?x = _ |- _ => rewrite H in H'; injection H' as H'
       end; try discriminate; subst.
  all: reflexivity.
Qed.

Lemma comment_passes_provider_error_witness :
  fst (commentPost down Stub.with_url Stub.comment_request fresh_world) =
  Ok (NextErr (Foreign "503 Service Unavailable")).
Proof.
  exact (comment_passes_provider_error down Stub.with_url Stub.comment_request
           fresh_world _ (Foreign "503 Service Unavailable") eq_refl eq_refl).
Defined.

(** A responder that is null is not replaced by the default responder:
    reading its name is a TypeError, which goes to [next] before
    anything is sent. *)
Theorem null_responder_is_a_type_error nd env body w text :
  has_string body "text" text ->
  configured (OPENAI_API_URL env) = true ->
  prop (or_else body (JObj [])) "responder" = JNull ->
  exists message,
    commentPost nd env body w = (Ok (NextErr (TypeError message)), w).
Proof.
  intros Htext Hurl Hnull. unfold commentPost. cbv zeta. step_comment.
  rewrite (text_guard body text Htext), Hurl, Hnull. cbn [negb with_default nullish].
  eexists. reflexivity.
Qed.

Lemma null_responder_is_a_type_error_witness :
  has_string null_responder_request "text" "Great video!" /\
  exists message,
    commentPost (Stub.chat []) Stub.with_url null_responder_request fresh_world =
    (Ok (NextErr (TypeError message)), fresh_world).
Proof.
  assert (Htext : has_string null_responder_request "text" "Great video!")
    by (split; [reflexivity|discriminate]).
  split; [exact Htext|].
  exact (null_responder_is_a_type_error (Stub.chat []) Stub.with_url
           null_responder_request fresh_world "Great video!" Htext eq_refl eq_refl).
Defined.

(** Whatever the request and the provider, the comment handler leaves
    the locals and the disk alone and logs at most one event, a call to
    the provider. *)
Theorem comment_sends_at_most_once nd env body w :
  locals (snd (commentPost nd env body w)) = locals w /\
  files (snd (commentPost nd env body w)) = files w /\
  dirs (snd (commentPost nd env body w)) = dirs w /\
  (trace (snd (commentPost nd env body w)) = trace w \/
   exists call, provider_call call = true /\
                trace (snd (commentPost nd env body w)) = trace w ++ [call]).
Proof.
  unfold commentPost. cbv zeta. step_comment. comment_ifs.
  all: cbn [fst snd trace locals files dirs].
  all: repeat split; try reflexivity.
  all: first [ left; reflexivity | right; eexists; split; [|reflexivity]; reflexivity ].
Qed.

End CommentExtras.

(** * The earlier comment handler and the base address *)

Module LegacyExtras.
Import Js Express Reading Cases.

Ltac step_legacy :=
  cbv beta iota zeta delta
    [handler try_catch bind ret throw lift emit CommentController.member
     get_locals set_locals];
  cbn [fst snd trace locals files dirs].

Lemma strip_trailing_slash_added s : strip_trailing_slash (s +:+ "/") = s.
Proof.
  induction s as [|c rest IH]; [reflexivity|].
  destruct rest as [|c' rest']; [reflexivity|].
  change (strip_trailing_slash (String c (String c' rest') +:+ "/"))
    with (String c (strip_trailing_slash (String c' rest' +:+ "/"))).
  rewrite IH. reflexivity.
Qed.

Lemma configured_added_slash s : configured (Some (s +:+ "/")) = true.
Proof. destruct s; reflexivity. Qed.

(** A base address with one trailing slash and the same address without
    it are the same to the two current handlers: both runs are equal,
    request for request. *)
Theorem trailing_slash_makes_no_difference nd key url body w :
  url <> EmptyString ->
  strip_trailing_slash url = url ->
  let bare := {| OPENAI_API_KEY := key; OPENAI_API_URL := Some url |} in
  let slashed := {| OPENAI_API_KEY := key; OPENAI_API_URL := Some (url +:+ "/") |} in
  ImageController.generateImage nd slashed body w =
  ImageController.generateImage nd bare body w /\
  CommentController.commentPost nd slashed body w =
  CommentController.commentPost nd bare body w.
Proof.
  intros Hne Hbare. cbv zeta.
  assert (Hconf : configured (Some url) = true).
  { unfold configured. apply String.eqb_neq in Hne. rewrite Hne. reflexivity. }
  split.
  - unfold ImageController.generateImage. cbv zeta.
    cbn [OPENAI_API_KEY OPENAI_API_URL env_value].
    rewrite strip_trailing_slash_added, Hbare, configured_added_slash, Hconf.
    reflexivity.
  - unfold CommentController.commentPost. cbv zeta.
    cbn [OPENAI_API_KEY OPENAI_API_URL env_value].
    rewrite strip_trailing_slash_added, Hbare, configured_added_slash, Hconf.
    reflexivity.
Qed.

Lemma trailing_slash_makes_no_difference_witness :
  strip_trailing_slash "https://llm.example" = "https://llm.example" /\
  ImageController.generateImage Stub.quiet Stub.with_url Stub.space_request fresh_world =
  ImageController.generateImage Stub.quiet with_bare_url Stub.space_request fresh_world /\
  CommentController.commentPost Stub.quiet Stub.with_url Stub.comment_request fresh_world =
  CommentController.commentPost Stub.quiet with_bare_url Stub.comment_request fresh_world.
Proof.
  assert (Hne : "https://llm.example" <> EmptyString) by discriminate.
  split; [reflexivity|]. split.
  - exact (proj1 (trailing_slash_makes_no_difference Stub.quiet None "https://llm.example"
                    Stub.space_request fresh_world Hne eq_refl)).
  - exact (proj2 (trailing_slash_makes_no_difference Stub.quiet None "https://llm.example"
                    Stub.comment_request fresh_world Hne eq_refl)).
Defined.

(** The earlier handler forwards whatever the body holds under text,
    checked or not, in one POST to the base address as configured (a
    trailing slash is kept) followed by /v1/chat/completions, and never
    with a bearer header, key or no key. *)
Theorem legacy_forwards_text_unchecked nd env body w :
  nullish body = false ->
  configured (OPENAI_API_URL env) = true ->
  trace (snd (LegacyCommentController.commentPost nd env body w)) =
  trace w ++
  [EvFetchData
     (env_value (OPENAI_API_URL env) +:+ "/v1/chat/completions")
     {| fo_method := "POST";
        fo_headers := [("Content-Type", "application/json")];
        fo_body :=
          JObj [("messages",
                 JArr [JObj [("role", JStr "system");
                             ("content",
                              JStr "You are the user that we are looking for doing tasks")];
                       JObj [("role", JStr "user"); ("content", prop body "text")]]);
                ("model", JStr "gpt-4o-mini")] |}].
Proof.
  intros Hbody Hurl. unfold LegacyCommentController.commentPost. step_legacy.
  rewrite Hbody, Hurl. cbn [negb]. step_legacy.
  destruct (fetchData nd _ _) as [completion|e]; cbn [fst snd trace]; [|reflexivity].
  destruct (negb (truthy (opt_prop (opt_prop completion "choices") "length")));
    [reflexivity|].
  destruct (nullish (first (prop completion "choices"))); reflexivity.
Qed.

Lemma legacy_forwards_text_unchecked_witness :
  trace (snd (LegacyCommentController.commentPost (Stub.chat []) Stub.with_url
                (JObj [("style", JStr "funny")]) fresh_world)) =
  [EvFetchData "https://llm.example//v1/chat/completions"
     {| fo_method := "POST";
        fo_headers := [("Content-Type", "application/json")];
        fo_body :=
          JObj [("messages",
                 JArr [JObj [("role", JStr "system");
                             ("content",
                              JStr "You are the user that we are looking for doing tasks")];
                       JObj [("role", JStr "user"); ("content", JUndefined)]]);
                ("model", JStr "gpt-4o-mini")] |}].
Proof.
  exact (legacy_forwards_text_unchecked (Stub.chat []) Stub.with_url
           (JObj [("style", JStr "funny")]) fresh_world eq_refl eq_refl).
Defined.

(** What the earlier handler answers once the provider has returned a
    completion with at least one choice: a TypeError handed to [next]
    when the first choice is null or undefined, otherwise the JSON body
    whose only field, response, is the message content when present and
    the empty string when not. *)
Theorem legacy_reply nd env body w call completion choice rest :
  trace (snd (LegacyCommentController.commentPost nd env body w)) = trace w ++ [call] ->
  answer_of nd call = Some (Ok completion) ->
  opt_prop completion "choices" = JArr (choice :: rest) ->
  if nullish choice then
    exists message,
      fst (LegacyCommentController.commentPost nd env body w) =
      Ok (NextErr (TypeError message))
  else
    fst (LegacyCommentController.commentPost nd env body w) =
    Ok (Json (JObj [("response",
                     coalesce (opt_prop (prop choice "message") "content")
                       (JStr EmptyString))])).
Proof.
  intros Hlog Hans Hchoices.
  pose proof (CommentProps.opt_prop_array _ _ _ Hchoices) as Hprop.
  revert Hlog Hans. unfold LegacyCommentController.commentPost. step_legacy.
  repeat match goal with
         | |- context [match ?r with Ok _ => _ | Throw _ => _ end] => destruct r eqn:?
         | |- context [if negb (configured ?c) then _ else _] =>
             destruct (negb (configured c)) eqn:?
         | |- context [if nullish ?c then _ else _ ] =>
             lazymatch c with
             | choice => fail
             | _ => destruct (nullish c) eqn:?
             end
         | |- context [if negb (truthy (opt_prop (opt_prop ?a "choices") "length")) then _ else _] =>
             destruct (negb (truthy (opt_prop (opt_prop a "choices") "length"))) eqn:?
         end.
  all: cbn [fst snd trace]; intros Hlog Hans.
  all: try (exfalso; exact (ImageProps.log_none _ _ Hlog)).
  all: apply ImageProps.log_one in Hlog; subst call; cbn [answer_of] in Hans.
  all: match goal with
       | H : ?x = _, H' : Some ?x = _ |- _ => rewrite H in H'; injection H' as H'
       end; try discriminate; subst.
  all: try match goal with
         | H : negb (truthy (opt_prop (opt_prop _ "choices") "length")) = true |- _ =>
             rewrite Hchoices in H; discriminate H
         end.
  all: match goal with
       | H : nullish (first (prop _ "choices")) = _ |- _ =>
           rewrite Hprop in H; cbn [first] in H; rewrite H
       end.
  - eexists. reflexivity.
  - rewrite Hprop. reflexivity.
Qed.

Lemma legacy_reply_witness :
  (exists message,
     fst (LegacyCommentController.commentPost (Stub.chat [JNull]) Stub.with_url
            Stub.comment_request fresh_world) = Ok (NextErr (TypeError message))) /\
  fst (LegacyCommentController.commentPost
         (Stub.chat [Stub.legacy_choice "Glad you liked it."]) Stub.with_url
         Stub.comment_request fresh_world) =
  Ok (Json (JObj [("response", JStr EmptyString)])) /\
  fst (LegacyCommentController.commentPost
         (Stub.chat [Stub.chat_choice (JStr "Thanks for watching!")]) Stub.with_url
         Stub.comment_request fresh_world) =
  Ok (Json (JObj [("response", JStr "Thanks for watching!")])).
Proof.
  split; [|split].
  - exact (legacy_reply (Stub.chat [JNull]) Stub.with_url Stub.comment_request
             fresh_world _ (Stub.completion [JNull]) JNull [] eq_refl eq_refl eq_refl).
  - exact (legacy_reply (Stub.chat [Stub.legacy_choice "Glad you liked it."])
             Stub.with_url Stub.comment_request fresh_world _
             (Stub.completion [Stub.legacy_choice "Glad you liked it."])
             _ [] eq_refl eq_refl eq_refl).
  - exact (legacy_reply (Stub.chat [Stub.chat_choice (JStr "Thanks for watching!")])
             Stub.with_url Stub.comment_request fresh_world _
             (Stub.completion [Stub.chat_choice (JStr "Thanks for watching!")])
             _ [] eq_refl eq_refl eq_refl).
Defined.

End LegacyExtras.
